(** * Car auction scraper: job registry, runners, normalizer and deduplicator

    A shallow embedding of the Python sources
      - [classic/classic.py] and [scraper_integration.py]
        (price normalisation, [is_duplicate], the Classic.com pipeline and
        the two background runners),
      - [app.py] (the job map [scraping_jobs] and its endpoints),
      - [theclassicvaluer/playwright_code.py] (listing parser and the
        validity filter),
    followed by the properties of the specification that were checked
    against them.

    Conventions of the embedding.
      - A Python [str] is a [string]: the bytes of its UTF-8 encoding, the
        literals of the sources kept byte for byte.  Python counts and
        classifies characters, not bytes: [len], slices, [strip] and the
        class [\s] are written on the encoding ([py_len], [py_take],
        [after_space]).  [lower] and the class [\d] cover the ASCII letters
        and digits.
      - A Python [int] is a [Z].
      - A call either returns or raises: [outcome].
      - [a / b] on ints is the double nearest to the exact quotient.  The
        sources only compare such a quotient with a constant or truncate it,
        so quotients are kept as exact fractions and the rounding is folded
        into the comparison or the truncation (see [le_0_05], [int_of_half]). *)

From Stdlib Require Import ZArith List String Ascii Bool Lia Sorted.
From stdpp Require Import base gmap strings list pretty.

Local Open Scope string_scope.
Local Open Scope list_scope.
Local Open Scope Z_scope.

(** ** Python outcomes *)

Inductive exn : Type :=
| KeyError (key : string)
| ValueError (literal : string)
| ZeroDivisionError
| OverflowError
| TypeError (msg : string)
| HTTPException (status_code : Z) (detail : string)
| Exception (msg : string).

Inductive outcome (A : Type) : Type :=
| Return (a : A)
| Raise (e : exn).

Arguments Return {A} a.
Arguments Raise {A} e.

(** ** Text helpers *)

(** [\d] on ASCII. *)
Definition is_digit (c : ascii) : bool :=
  let n := Z.of_nat (nat_of_ascii c) in (48 <=? n) && (n <=? 57).

Definition digit_value (c : ascii) : Z := Z.of_nat (nat_of_ascii c) - 48.

(** *** Characters of a text

    A character is a byte that is not a continuation byte ([10xxxxxx])
    together with the continuation bytes that follow it. *)
Definition is_continuation (c : ascii) : bool :=
  let n := Z.of_nat (nat_of_ascii c) in (128 <=? n) && (n <? 192).

(** [len(s)]: the number of characters. *)
Fixpoint py_len (s : string) : nat :=
  match s with
  | EmptyString => O
  | String c s' => if is_continuation c then py_len s' else S (py_len s')
  end.

(** [s[:n]]: the first [n] characters. *)
Fixpoint py_take (n : nat) (s : string) : string :=
  match s with
  | EmptyString => EmptyString
  | String c s' =>
    if is_continuation c then String c (py_take n s')
    else
      match n with
      | O => EmptyString
      | S n' => String c (py_take n' s')
      end
  end.

(** [str.isspace] / [\s], the characters of one byte: TAB, LF, VT, FF, CR,
    FS, GS, RS, US, SPACE. *)
Definition is_space (c : ascii) : bool :=
  let n := Z.of_nat (nat_of_ascii c) in
  ((9 <=? n) && (n <=? 13)) || ((28 <=? n) && (n <=? 32)).

(** The whitespace characters of two bytes: U+0085 (bytes 194, 133) and
    the no-break space U+00A0 (bytes 194, 160). *)
Definition is_space2 (c1 c2 : ascii) : bool :=
  let n1 := Z.of_nat (nat_of_ascii c1) in
  let n2 := Z.of_nat (nat_of_ascii c2) in
  (n1 =? 194) && ((n2 =? 133) || (n2 =? 160)).

(** The whitespace characters of three bytes: U+1680 (bytes 225, 154, 128),
    U+2000..U+200A (226, 128, then 128 to 138), U+2028, U+2029 and U+202F
    (226, 128, then 168, 169 and 175), U+205F (226, 129, 159) and U+3000
    (227, 128, 128). *)
Definition is_space3 (c1 c2 c3 : ascii) : bool :=
  let n1 := Z.of_nat (nat_of_ascii c1) in
  let n2 := Z.of_nat (nat_of_ascii c2) in
  let n3 := Z.of_nat (nat_of_ascii c3) in
  ((n1 =? 225) && (n2 =? 154) && (n3 =? 128))
  || ((n1 =? 226) && (n2 =? 128)
      && (((128 <=? n3) && (n3 <=? 138))
          || (n3 =? 168) || (n3 =? 169) || (n3 =? 175)))
  || ((n1 =? 226) && (n2 =? 129) && (n3 =? 159))
  || ((n1 =? 227) && (n2 =? 128) && (n3 =? 128)).

(** What is left of [s] after the whitespace character it starts with;
    [None] when it starts with none. *)
Definition after_space (s : string) : option string :=
  match s with
  | String c1 s1 =>
    if is_space c1 then Some s1
    else
      match s1 with
      | String c2 s2 =>
        if is_space2 c1 c2 then Some s2
        else
          match s2 with
          | String c3 s3 => if is_space3 c1 c2 c3 then Some s3 else None
          | EmptyString => None
          end
      | EmptyString => None
      end
  | EmptyString => None
  end.

(** [re.sub(r"[^\d]", "", s)]. *)
Fixpoint keep_digits (s : string) : string :=
  match s with
  | EmptyString => EmptyString
  | String c s' => if is_digit c then String c (keep_digits s') else keep_digits s'
  end.

Fixpoint all_digits (s : string) : bool :=
  match s with
  | EmptyString => true
  | String c s' => is_digit c && all_digits s'
  end.

(** Value of a run of decimal digits, most significant first. *)
Fixpoint digits_value (acc : Z) (s : string) : Z :=
  match s with
  | EmptyString => acc
  | String c s' => digits_value (10 * acc + digit_value c) s'
  end.

(** [int(s)] for a text without blank, sign or underscore (the callers pass
    the result of a digit filter or of the classes [[\d,]] and [\.\d{2}]):
    a non-empty run of digits is its value, anything else is a ValueError. *)
Definition py_int (s : string) : outcome Z :=
  match s with
  | EmptyString => Raise (ValueError s)
  | _ => if all_digits s then Return (digits_value 0 s) else Raise (ValueError s)
  end.

(** ASCII [str.lower]. *)
Definition lower_char (c : ascii) : ascii :=
  let n := nat_of_ascii c in
  if ((65 <=? n) && (n <=? 90))%nat then ascii_of_nat (n + 32) else c.

Fixpoint lower (s : string) : string :=
  match s with
  | EmptyString => EmptyString
  | String c s' => String (lower_char c) (lower s')
  end.

(** [needle in haystack]. *)
Fixpoint contains (needle haystack : string) : bool :=
  String.prefix needle haystack ||
  match haystack with
  | EmptyString => false
  | String _ rest => contains needle rest
  end.

(** *** Letter case *)







(** ** Deduplicator ([classic/classic.py], [scraper_integration.py]) *)

(** A row of the Classic.com table, with the column names of the CSV. *)
Record row : Type := Row {
  Make : string;
  Model : string;
  Production_Year : string;
  Date_of_Sale : string;
  Sold_Price : string;
  Gearbox : string;
  Description : string;
  Auction_House : string;
  Country_of_Sale : string;
  Spyder : bool;
  LHD_RHD : string
}.

(** [normalize_price(price_str) = int(re.sub(r"[^\d]", "", price_str))]. *)
Definition normalize_price (price_str : string) : outcome Z :=
  py_int (keep_digits price_str).

(** A quotient of two ints, standing for the double nearest to it. *)
Record quotient : Type := Quot { q_num : Z; q_den : Z }.

(** Largest magnitude that still rounds to a finite double:
    everything from [2^1024 - 2^970] on rounds to infinity. *)
Definition double_limit : Z := 2 ^ 1024 - 2 ^ 970.

(** [a / n] for [0 <= a], [0 <= n]. *)
Definition true_div (a n : Z) : outcome quotient :=
  if n =? 0 then Raise ZeroDivisionError
  else if double_limit * n <=? a then Raise OverflowError
  else Return (Quot a n).

(** [q <= 0.05].  The literal is the double [7205759403792794 / 2^57], whose
    successor is [2^-57] above it; the double nearest to [q] is at most the
    literal exactly when [q] is at most their midpoint
    [14411518807585589 / 2^58] (the tie goes to the even significand, the
    literal's). *)
Definition le_0_05 (q : quotient) : bool :=
  q_num q * 2 ^ 58 <=? 14411518807585589 * q_den q.

(** The loop of [is_duplicate] over [existing_entries]; [and] evaluates its
    operands left to right and stops at the first false one, so the division
    only happens for an entry that agrees on make, model and date. *)
Fixpoint is_duplicate_from (new_row : row) (new_price : Z)
    (existing_entries : list row) : outcome bool :=
  match existing_entries with
  | [] => Return false
  | existing :: rest =>
    match normalize_price (Sold_Price existing) with
    | Raise e => Raise e
    | Return existing_price =>
      if String.eqb (Make new_row) (Make existing)
         && String.eqb (Model new_row) (Model existing)
         && String.eqb (Date_of_Sale new_row) (Date_of_Sale existing)
      then
        match true_div (Z.abs (existing_price - new_price)) new_price with
        | Raise e => Raise e
        | Return q =>
          if le_0_05 q then Return true
          else is_duplicate_from new_row new_price rest
        end
      else is_duplicate_from new_row new_price rest
    end
  end.

(** [is_duplicate(new_row)] with the enclosing [existing_entries] made an
    argument. *)
Definition is_duplicate (new_row : row) (existing_entries : list row)
    : outcome bool :=
  match normalize_price (Sold_Price new_row) with
  | Raise e => Raise e
  | Return new_price => is_duplicate_from new_row new_price existing_entries
  end.

(** The key of the specification: make, model and sale date compared after
    case folding. *)
Definition same_key_nocase (a b : row) : Prop :=
  lower (Make a) = lower (Make b)
  /\ lower (Model a) = lower (Model b)
  /\ lower (Date_of_Sale a) = lower (Date_of_Sale b).

(** The key of the code: the three fields compared with [==]. *)
Definition same_key (a b : row) : Prop :=
  Make a = Make b /\ Model a = Model b /\ Date_of_Sale a = Date_of_Sale b.

(** A history record that can make the candidate a duplicate. *)
Definition matches (candidate : row) (new_price : Z) (e : row) : Prop :=
  same_key candidate e
  /\ exists p, normalize_price (Sold_Price e) = Return p
               /\ le_0_05 (Quot (Z.abs (p - new_price)) new_price) = true.

(** The tolerance on the exact quotient: [|p - n| / n <= 5%]. *)
Definition within_5_percent (p n : Z) : Prop := 20 * Z.abs (p - n) <= n.

Definition sample_row (make model date price : string) : row :=
  Row make model "2006" date price "Manual" "" "Unknown" "Unknown" false "Unknown".

(** ** The Classic.com pipeline ([run_classic_com_scraper_real]) *)

(** A CSV file on disk: the records it holds, or content that the reader
    rejects. *)
Inductive file (record : Type) : Type :=
| Csv (records : list record)
| Garbled (why : exn).

Arguments Csv {record} records.
Arguments Garbled {record} why.

(** The dict a scraper returns.  [res_results] and [res_csv_file] are [None]
    when the key is absent (or, for the file, holds [None]). *)
Record scrape_result (record : Type) : Type := ScrapeResult {
  success : bool;
  records_found : Z;
  res_csv_file : option string;
  res_results : option (list record);
  error : option string
}.

Arguments ScrapeResult {record}.
Arguments success {record}.
Arguments records_found {record}.
Arguments res_csv_file {record}.
Arguments res_results {record}.
Arguments error {record}.

(** [str(e)]. *)
Definition exn_str (e : exn) : string :=
  match e with
  | KeyError key => "'" +:+ key +:+ "'"
  | ValueError literal =>
      "invalid literal for int() with base 10: '" +:+ literal +:+ "'"
  | ZeroDivisionError => "division by zero"
  | OverflowError => "integer division result too large for a float"
  | TypeError msg => msg
  | HTTPException status_code detail => pretty status_code +:+ ": " +:+ detail
  | Exception msg => msg
  end.

(** The loop "Scrape each listing".  What the browser yields for one listing
    is [Some row] when the row dict gets built and [None] when the iteration
    ends before that ([continue] on a title or price that is missing, or an
    exception on the way, which the loop's handler turns into [continue]).
    [existing_entries] is the variable [is_duplicate] closes over; the loop
    appends to [new_data] and [results] only. *)
Fixpoint scrape_listings (existing_entries : list row)
    (listing_data : list (option row)) (new_data results : list row)
    : list row * list row :=
  match listing_data with
  | [] => (new_data, results)
  | None :: rest => scrape_listings existing_entries rest new_data results
  | Some row :: rest =>
    match is_duplicate row existing_entries with
    | Return false =>
        scrape_listings existing_entries rest (new_data ++ [row]) (results ++ [row])
    | Return true => scrape_listings existing_entries rest new_data results
    | Raise _ => scrape_listings existing_entries rest new_data results
    end
  end.

(** [run_classic_com_scraper_real]: [now] is the reading of the clock that
    names the output file, [disk] the directory of CSV files, [browse] what
    the browser session yields (the listings, or an exception that ends the
    run).  Returns the result dict and the directory afterwards. *)
Definition run_classic_com_scraper_real (now : string)
    (disk : gmap string (file row)) (browse : outcome (list (option row)))
    : scrape_result row * gmap string (file row) :=
  let OUTPUT_CSV := "classic_com_" +:+ now +:+ ".csv" in
  let failure e := (ScrapeResult false 0 None (Some []) (Some (exn_str e)), disk) in
  match disk !! OUTPUT_CSV with
  | Some (Garbled why) => failure why
  | existing_file =>
    let existing_entries :=
      match existing_file with Some (Csv records) => records | _ => [] end in
    match browse with
    | Raise e => failure e
    | Return listing_data =>
      let '(new_data, results) :=
        scrape_listings existing_entries listing_data [] [] in
      match new_data with
      | [] => (ScrapeResult true (Z.of_nat (length results)) None (Some results) None,
               disk)
      | _ => (ScrapeResult true (Z.of_nat (length results)) (Some OUTPUT_CSV)
                (Some results) None,
              <[OUTPUT_CSV := Csv new_data]> disk)
      end
    end
  end.

(** ** Jobs and the job map ([app.py]) *)

Inductive job_status : Type := pending | running | completed | failed.

(** Values of the option dicts. *)
#[warnings="-register-all"]
Inductive pyvalue : Type :=
| PyBool (b : bool)
| PyInt (n : Z)
| PyFloat (literal : string)
| PyStr (s : string)
| PyDict (items : list (string * pyvalue)).

Definition CLASSIC_VALUER_DEFAULT_OPTIONS : gmap string pyvalue :=
  list_to_map [
    ("headless", PyBool true);
    ("timeout", PyInt 30000);
    ("delay", PyInt 3000);
    ("max_pages", PyInt 3);
    ("viewport", PyDict [("width", PyInt 1920); ("height", PyInt 1080)])
  ].

Definition CLASSIC_COM_DEFAULT_OPTIONS : gmap string pyvalue :=
  list_to_map [
    ("headless", PyBool true);
    ("page", PyInt 1);
    ("max_listings", PyInt 50);
    ("conversion_rate", PyFloat "0.76");
    ("timeout", PyInt 60000)
  ].

(** [ScrapingRequest]: [options] is an [Optional[Dict]], a dict (the empty
    one when the request leaves the field out) or [None] when the request
    gives [null]. *)
Record ScrapingRequest : Type := Request {
  req_scraper_type : string;
  req_options : option (gmap string pyvalue)
}.

Section Registry.

(** The job map does not look inside the scraped records. *)
Context {record : Type}.

(** One value of [scraping_jobs]: the dict built by [start_scraping]. *)
Record job : Type := Job {
  job_id : string;
  status : job_status;
  message : string;
  progress : Z;
  total_records : Z;
  results : list record;
  csv_file : option string;
  started_at : string;
  completed_at : option string;
  scraper_type : string;
  options : option (gmap string pyvalue)
}.

(** The process state the endpoints and runners share: the global
    [scraping_jobs] and the CSV files of the working directory. *)
Record world : Type := World {
  scraping_jobs : gmap string job;
  files : gmap string (file record)
}.

(** [scraping_jobs[id][key] = value], one constructor per key assigned
    somewhere in the sources. *)
Inductive assignment : Type :=
| set_status (v : job_status)
| set_message (v : string)
| set_progress (v : Z)
| set_total_records (v : Z)
| set_results (v : list record)
| set_csv_file (v : option string)
| set_completed_at (v : string).

Definition assign (a : assignment) (j : job) : job :=
  let '(Job i st m p t r c s e ty o) := j in
  match a with
  | set_status v => Job i v m p t r c s e ty o
  | set_message v => Job i st v p t r c s e ty o
  | set_progress v => Job i st m v t r c s e ty o
  | set_total_records v => Job i st m p v r c s e ty o
  | set_results v => Job i st m p t v c s e ty o
  | set_csv_file v => Job i st m p t r v s e ty o
  | set_completed_at v => Job i st m p t r c s (Some v) ty o
  end.

(** What a piece of code did to the job map, in order. *)
Inductive write : Type :=
| Store (id : string) (j : job)
| SetItem (id : string) (a : assignment)
| Del (id : string).

(** A piece of code run from a world: its outcome, the world it leaves and
    the writes it made to the job map.  An exception keeps the writes made
    before it. *)
Record run (A : Type) : Type := Run {
  result : outcome A;
  after : world;
  writes : list write
}.

Arguments Run {A}.
Arguments result {A}.
Arguments after {A}.
Arguments writes {A}.

Definition task (A : Type) : Type := world -> run A.

Definition ret {A : Type} (a : A) : task A := fun w => Run (Return a) w [].

Definition raise {A : Type} (e : exn) : task A := fun w => Run (Raise e) w [].

Definition bind {A B : Type} (c : task A) (k : A -> task B) : task B :=
  fun w =>
    let r := c w in
    match result r with
    | Raise e => Run (Raise e) (after r) (writes r)
    | Return a =>
      let r' := k a (after r) in
      Run (result r') (after r') (writes r ++ writes r')
    end.

(** [try: body  except Exception as e: handler(e)]. *)
Definition try_except {A : Type} (body : task A) (handler : exn -> task A)
    : task A :=
  fun w =>
    let r := body w in
    match result r with
    | Return _ => r
    | Raise e =>
      let r' := handler e (after r) in
      Run (result r') (after r') (writes r ++ writes r')
    end.

Notation "c1 ;; c2" := (bind c1 (fun _ => c2))
  (at level 100, c2 at level 200, right associativity).
Notation "x <- c1 ;; c2" := (bind c1 (fun x => c2))
  (at level 100, c1 at next level, c2 at level 200, right associativity).

(** [scraping_jobs[id][key] = value]: the lookup of [id] raises KeyError
    when the job is not in the map. *)
Definition setitem (id : string) (a : assignment) : task unit :=
  fun w =>
    match scraping_jobs w !! id with
    | None => Run (Raise (KeyError id)) w []
    | Some j =>
      Run (Return tt)
          (World (<[id := assign a j]> (scraping_jobs w)) (files w))
          [SetItem id a]
    end.

(** [scraping_jobs[id] = j]. *)
Definition store (id : string) (j : job) : task unit :=
  fun w =>
    Run (Return tt) (World (<[id := j]> (scraping_jobs w)) (files w))
        [Store id j].

(** Waiting for a scraper.  While the runner waits (an [await], or a
    blocking call in its own thread) the rest of the process goes on:
    [elapse] is what the scraper itself, the other runners and the requests
    served in the meantime do to the world; [scraped] is what the call
    gives back. *)
Definition wait_for {A : Type} (elapse : world -> world) (scraped : outcome A)
    : task A :=
  fun w => Run scraped (elapse w) [].

(** The first [n] items, [l[:n]]. *)
Definition first_items {A : Type} (n : nat) (l : list A) : list A := firstn n l.

Section Runners.

Variable SCRAPERS_AVAILABLE : bool.

(** The sample dicts listed in [simulate_classic_valuer_scraper] and in
    [simulate_classic_com_scraper]. *)
Variable simulated_valuer_records : list record.
Variable simulated_com_records : list record.

(** The clock: [datetime.now()] in ISO format and in the format of the file
    names. *)
Variable now_iso : string.
Variable now_stamp : string.

(** What goes on in the process while a runner waits. *)
Variable elapse : world -> world.

(** [simulate_classic_valuer_scraper]: sleeps, then returns a fixed dict;
    the file it names is not written. *)
Definition simulate_classic_valuer_scraper : task (scrape_result record) :=
  wait_for elapse
    (Return (ScrapeResult true 12
               (Some ("classic_valuer_sim_" +:+ now_stamp +:+ ".csv"))
               (Some simulated_valuer_records) None)).

(** [simulate_classic_com_scraper]: sleeps, writes the sample CSV and
    returns. *)
Definition simulate_classic_com_scraper : task (scrape_result record) :=
  fun w =>
    let w' := elapse w in
    let csv_filename := "classic_com_sim_" +:+ now_stamp +:+ ".csv" in
    Run (Return (ScrapeResult true (Z.of_nat (length simulated_com_records))
                   (Some csv_filename) (Some simulated_com_records) None))
        (World (scraping_jobs w')
               (<[csv_filename := Csv simulated_com_records]> (files w')))
        [].

Definition error_text (r : scrape_result record) : string :=
  match error r with Some msg => msg | None => "Unknown error" end.

(** [result.get('results', [])]. *)
Definition results_or_empty (r : scrape_result record) : list record :=
  match res_results r with Some l => l | None => [] end.

(** [result['results']]. *)
Definition results_item (r : scrape_result record) : task (list record) :=
  match res_results r with
  | Some l => ret l
  | None => raise (KeyError "results")
  end.

(** [scrape_classic_valuer_background] of [scraper_integration.py];
    [scraped] is what [run_classic_valuer_scraper_real] gives back. *)
Definition scrape_classic_valuer_background (job_id : string)
    (scraped : outcome (scrape_result record)) : task unit :=
  try_except
    (setitem job_id (set_status running) ;;
     setitem job_id (set_message "Initializing Classic Valuer scraper...") ;;
     setitem job_id (set_progress 10) ;;
     setitem job_id (set_progress 25) ;;
     setitem job_id
       (set_message "Launching browser and navigating to market page...") ;;
     result <- wait_for elapse scraped ;;
     setitem job_id (set_progress 75) ;;
     setitem job_id (set_message "Processing and saving results...") ;;
     if success result then
       setitem job_id (set_status completed) ;;
       setitem job_id
         (set_message ("Successfully scraped " +:+ pretty (records_found result)
                       +:+ " records from Classic Valuer")) ;;
       setitem job_id (set_total_records (records_found result)) ;;
       setitem job_id (set_results (first_items 10 (results_or_empty result))) ;;
       setitem job_id (set_csv_file (res_csv_file result)) ;;
       setitem job_id (set_progress 100)
     else
       setitem job_id (set_status failed) ;;
       setitem job_id
         (set_message ("Classic Valuer scraping failed: " +:+ error_text result)))
    (fun e =>
       setitem job_id (set_status failed) ;;
       setitem job_id
         (set_message ("Error in Classic Valuer scraper: " +:+ exn_str e))) ;;
  setitem job_id (set_completed_at now_iso).

(** [scrape_classic_com_background] of [scraper_integration.py];
    [scraped] is what [run_classic_com_scraper_real] gives back. *)
Definition scrape_classic_com_background (job_id : string)
    (scraped : outcome (scrape_result record)) : task unit :=
  try_except
    (setitem job_id (set_status running) ;;
     setitem job_id (set_message "Initializing Classic.com scraper...") ;;
     setitem job_id (set_progress 10) ;;
     setitem job_id (set_message "Launching browser and fetching listings...") ;;
     setitem job_id (set_progress 30) ;;
     result <- wait_for elapse scraped ;;
     setitem job_id (set_progress 80) ;;
     setitem job_id (set_message "Processing results...") ;;
     if success result then
       setitem job_id (set_status completed) ;;
       setitem job_id
         (set_message ("Successfully scraped " +:+ pretty (records_found result)
                       +:+ " records from Classic.com")) ;;
       setitem job_id (set_total_records (records_found result)) ;;
       l <- results_item result ;;
       setitem job_id (set_results (first_items 10 l)) ;;
       setitem job_id (set_csv_file (res_csv_file result)) ;;
       setitem job_id (set_progress 100)
     else
       setitem job_id (set_status failed) ;;
       setitem job_id
         (set_message ("Classic.com scraping failed: " +:+ error_text result)))
    (fun e =>
       setitem job_id (set_status failed) ;;
       setitem job_id
         (set_message ("Error in Classic.com scraper: " +:+ exn_str e))) ;;
  setitem job_id (set_completed_at now_iso).

(** The handler shared by the two runners of [app.py]. *)
Definition runner_failed (job_id : string) (e : exn) : task unit :=
  setitem job_id (set_status failed) ;;
  setitem job_id (set_message ("Error: " +:+ exn_str e)) ;;
  setitem job_id (set_completed_at now_iso).

(** [run_classic_valuer_background] of [app.py]. *)
Definition run_classic_valuer_background (job_id : string)
    (scraped : outcome (scrape_result record)) : task unit :=
  try_except
    (setitem job_id (set_status running) ;;
     setitem job_id (set_message "Initializing Classic Valuer scraper...") ;;
     setitem job_id (set_progress 10) ;;
     if SCRAPERS_AVAILABLE then
       scrape_classic_valuer_background job_id scraped
     else
       setitem job_id (set_progress 25) ;;
       setitem job_id
         (set_message "Running simulation (real scrapers not available)...") ;;
       result <- simulate_classic_valuer_scraper ;;
       setitem job_id (set_progress 75) ;;
       setitem job_id (set_message "Processing simulated results...") ;;
       (if success result then
          setitem job_id (set_status completed) ;;
          setitem job_id
            (set_message ("Simulation completed: "
                          +:+ pretty (records_found result) +:+ " records")) ;;
          setitem job_id (set_total_records (records_found result)) ;;
          setitem job_id (set_results (results_or_empty result)) ;;
          setitem job_id (set_csv_file (res_csv_file result)) ;;
          setitem job_id (set_progress 100)
        else
          setitem job_id (set_status failed) ;;
          setitem job_id
            (set_message ("Simulation failed: " +:+ error_text result))) ;;
       setitem job_id (set_completed_at now_iso))
    (runner_failed job_id).

(** [run_classic_com_background] of [app.py]. *)
Definition run_classic_com_background (job_id : string)
    (scraped : outcome (scrape_result record)) : task unit :=
  try_except
    (setitem job_id (set_status running) ;;
     setitem job_id (set_message "Initializing Classic.com scraper...") ;;
     setitem job_id (set_progress 10) ;;
     if SCRAPERS_AVAILABLE then
       scrape_classic_com_background job_id scraped
     else
       setitem job_id (set_progress 30) ;;
       setitem job_id
         (set_message "Running simulation (real scrapers not available)...") ;;
       result <- simulate_classic_com_scraper ;;
       setitem job_id (set_progress 80) ;;
       setitem job_id (set_message "Processing simulated results...") ;;
       (if success result then
          setitem job_id (set_status completed) ;;
          setitem job_id
            (set_message ("Simulation completed: "
                          +:+ pretty (records_found result) +:+ " records")) ;;
          setitem job_id (set_total_records (records_found result)) ;;
          l <- results_item result ;;
          setitem job_id (set_results (first_items 10 l)) ;;
          setitem job_id (set_csv_file (res_csv_file result)) ;;
          setitem job_id (set_progress 100)
        else
          setitem job_id (set_status failed) ;;
          setitem job_id
            (set_message ("Simulation failed: " +:+ error_text result))) ;;
       setitem job_id (set_completed_at now_iso))
    (runner_failed job_id).

(** The dict [start_scraping] answers with. *)
Record start_response : Type := StartResponse {
  resp_job_id : string;
  resp_message : string;
  resp_options : option (gmap string pyvalue)
}.

(** [{**defaults, **request.options} if SCRAPERS_AVAILABLE else
    request.options]: the request wins on a common key; unpacking [None]
    raises TypeError. *)
Definition merged_options (defaults : gmap string pyvalue)
    (request : ScrapingRequest) : task (option (gmap string pyvalue)) :=
  if SCRAPERS_AVAILABLE then
    match req_options request with
    | Some options => ret (Some (options ∪ defaults))
    | None => raise (TypeError "'NoneType' object is not a mapping")
    end
  else ret (req_options request).

(** [start_scraping]: [uuid4] is the text of the identifier that
    [uuid.uuid4()] draws.  The runner it schedules runs after the handler
    has returned (see [scrape_job]). *)
Definition start_scraping (uuid4 : string) (request : ScrapingRequest)
    : task start_response :=
  let job_id := String.substring 0 8 uuid4 in
  options <-
    (if String.eqb (req_scraper_type request) "classic_valuer" then
       merged_options CLASSIC_VALUER_DEFAULT_OPTIONS request
     else if String.eqb (req_scraper_type request) "classic_com" then
       merged_options CLASSIC_COM_DEFAULT_OPTIONS request
     else
       raise (HTTPException 400
                "Invalid scraper type. Use 'classic_valuer' or 'classic_com'")) ;;
  store job_id
    (Job job_id pending
         (req_scraper_type request +:+ " scraping job queued for processing")
         0 0 [] None now_iso None (req_scraper_type request) options) ;;
  ret (StartResponse job_id
         (req_scraper_type request +:+ " scraping job started") options).

(** The runner [start_scraping] schedules for the request. *)
Definition scheduled_runner (request : ScrapingRequest) (job_id : string)
    (scraped : outcome (scrape_result record)) : task unit :=
  if String.eqb (req_scraper_type request) "classic_valuer" then
    run_classic_valuer_background job_id scraped
  else if String.eqb (req_scraper_type request) "classic_com" then
    run_classic_com_background job_id scraped
  else ret tt.

(** One job from the request to the end of its runner; the process goes on
    between the handler and the start of the runner too. *)
Definition scrape_job (uuid4 : string) (request : ScrapingRequest)
    (scraped : outcome (scrape_result record)) : task unit :=
  response <- start_scraping uuid4 request ;;
  wait_for elapse (Return tt) ;;
  scheduled_runner request (resp_job_id response) scraped.

End Runners.

(** [get_job_status]. *)
Definition get_job_status (job_id : string) : task job :=
  fun w =>
    match scraping_jobs w !! job_id with
    | None => raise (HTTPException 404 "Job not found") w
    | Some j => ret j w
    end.

(** Truth value of [job['csv_file']]: neither [None] nor the empty text. *)
Definition named_file (j : job) : option string :=
  match csv_file j with
  | Some EmptyString => None
  | other => other
  end.

(** [delete_job]: unlinks the job's CSV file when it names one (a missing
    file is fine), then removes the job. *)
Definition delete_job (job_id : string) : task string :=
  fun w =>
    match scraping_jobs w !! job_id with
    | Some j =>
      let files' :=
        match named_file j with
        | Some name => delete name (files w)
        | None => files w
        end in
      Run (Return "Job deleted")
          (World (delete job_id (scraping_jobs w)) files')
          [Del job_id]
    | None => raise (HTTPException 404 "Job not found") w
    end.

(** The three shapes of the answer of [get_job_results]. *)
Inductive results_response : Type :=
| CsvData (job_id : string) (total_records : Z) (data : list record)
| ReadError (text : string)
| StoredResults (job_id : string) (results : list record).

(** [get_job_results]. *)
Definition get_job_results (job_id : string) : task results_response :=
  fun w =>
    match scraping_jobs w !! job_id with
    | None => raise (HTTPException 404 "Job not found") w
    | Some j =>
      match status j with
      | completed =>
        match named_file j with
        | Some name =>
          match files w !! name with
          | Some (Csv records) =>
              ret (CsvData job_id (Z.of_nat (length records)) records) w
          | Some (Garbled why) =>
              ret (ReadError ("Failed to read CSV: " +:+ exn_str why)) w
          | None => ret (StoredResults job_id (results j)) w
          end
        | None => ret (StoredResults job_id (results j)) w
        end
      | _ => raise (HTTPException 400 "Job not completed") w
      end
    end.

(** The progress values a sequence of writes puts into job [id]. *)
Fixpoint progress_values (id : string) (ws : list write) : list Z :=
  match ws with
  | [] => []
  | Store id' j :: rest =>
      if String.eqb id' id then progress j :: progress_values id rest
      else progress_values id rest
  | SetItem id' (set_progress v) :: rest =>
      if String.eqb id' id then v :: progress_values id rest
      else progress_values id rest
  | _ :: rest => progress_values id rest
  end.

End Registry.

Arguments job : clear implicits.
Arguments world : clear implicits.
Arguments task : clear implicits.
Arguments run : clear implicits.
Arguments write : clear implicits.
Arguments assignment : clear implicits.
Arguments results_response : clear implicits.
Arguments Run {record A}.
Arguments result {record A}.
Arguments after {record A}.
Arguments writes {record A}.

(** ** Listing parser ([theclassicvaluer/playwright_code.py]) *)

(** *** Regular expressions

    The fragment of [re] that the price patterns use, with Python's
    backtracking order: a quantifier takes as much as it can and gives back
    one repetition at a time; the search tries the start positions from left
    to right.  [Class] is a class of one-byte characters; [Chars] is a class
    that has longer characters too, given by what is left of the text after
    one character of the class. *)
Inductive regex : Type :=
| Lit (text : string)
| Class (member : ascii -> bool)
| Chars (rest_after : string -> option string)
| Seq (r1 r2 : regex)
| Opt (r : regex)
| Star (r : regex)
| Group (r : regex).

(** [r+]. *)
Definition Plus (r : regex) : regex := Seq r (Star r).

(** [s] without its first [n] characters. *)
Fixpoint skip (n : nat) (s : string) : string :=
  match n, s with
  | S n', String _ s' => skip n' s'
  | _, _ => s
  end.

(** Matches [r] at the start of [s], then hands the rest of the text and
    the groups closed so far to [k]; [None] sends the matcher back to its
    last choice. *)
Fixpoint rmatch {R : Type} (r : regex) (s : string) (groups : list string)
    (k : string -> list string -> option R) : option R :=
  match r with
  | Lit text =>
      if String.prefix text s then k (skip (String.length text) s) groups
      else None
  | Class member =>
      match s with
      | String c s' => if member c then k s' groups else None
      | EmptyString => None
      end
  | Chars rest_after =>
      match rest_after s with
      | Some s' => k s' groups
      | None => None
      end
  | Seq r1 r2 => rmatch r1 s groups (fun s1 g1 => rmatch r2 s1 g1 k)
  | Opt r1 =>
      match rmatch r1 s groups k with
      | Some x => Some x
      | None => k s groups
      end
  | Star r1 =>
      (fix repeat (n : nat) (s : string) (groups : list string) : option R :=
         match n with
         | O => k s groups
         | S n' =>
           match rmatch r1 s groups
                   (fun s1 g1 =>
                      if (String.length s1 <? String.length s)%nat
                      then repeat n' s1 g1 else None) with
           | Some x => Some x
           | None => k s groups
           end
         end) (String.length s) s groups
  | Group r1 =>
      rmatch r1 s groups
        (fun s1 g1 =>
           k s1 (g1 ++ [String.substring 0 (String.length s - String.length s1) s])%list)
  end.

(** [re.search(r, text)]: the groups of the leftmost match. *)
Fixpoint search (r : regex) (text : string) : option (list string) :=
  match rmatch r text [] (fun _ groups => Some groups) with
  | Some groups => Some groups
  | None =>
    match text with
    | EmptyString => None
    | String _ rest => search r rest
    end
  end.

(** *** Prices *)

Definition is_comma (c : ascii) : bool := Ascii.eqb c ",".
Definition is_dot (c : ascii) : bool := Ascii.eqb c ".".

(** [\s]. *)
Definition whitespace : regex := Chars after_space.

(** [([\d,]+(?:\.\d{2})?)]. *)
Definition amount : regex :=
  Group (Seq (Plus (Class (fun c => is_digit c || is_comma c)))
             (Opt (Seq (Class is_dot) (Seq (Class is_digit) (Class is_digit))))).

(** The currency prefix as the source file spells it. *)
Definition currency : string := "Â£".

(** [price_patterns[0]], the range, and [price_patterns[1]], the single
    price. *)
Definition range_pattern : regex :=
  Seq (Lit currency)
   (Seq amount
    (Seq (Star whitespace)
     (Seq (Lit "-")
      (Seq (Star whitespace)
       (Seq (Lit currency) amount))))).

Definition single_pattern : regex := Seq (Lit currency) amount.

(** [s.replace(',', '')]. *)
Fixpoint remove_commas (s : string) : string :=
  match s with
  | EmptyString => EmptyString
  | String c s' => if is_comma c then remove_commas s' else String c (remove_commas s')
  end.

(** The double nearest to the int [n >= 0] (ties to the even significand),
    as an int: [n] itself up to 53 bits, else [n] rounded to a multiple of
    [2^e] with [e = log2 n - 52]. *)
Definition nearest_double (n : Z) : Z :=
  let e := Z.log2 n - 52 in
  if e <=? 0 then n
  else
    let q := n / 2 ^ e in
    let r := n mod 2 ^ e in
    let half := 2 ^ (e - 1) in
    if (half <? r) || ((r =? half) && Z.odd q) then (q + 1) * 2 ^ e
    else q * 2 ^ e.

(** [int(n / 2)] for [n >= 0]: halving a double is exact, and the double
    nearest to [n / 2] is half the double nearest to [n]. *)
Definition int_of_half (n : Z) : outcome Z :=
  if double_limit * 2 <=? n then Raise OverflowError
  else Return (nearest_double n / 2).

(** The digits of [f'{n:,}'] from the digits of [n]: a comma before every
    group of three counted from the right. *)
Fixpoint insert_commas (digits : string) : string :=
  match digits with
  | EmptyString => EmptyString
  | String c rest =>
    String c
      (if (0 <? String.length rest)%nat && (String.length rest mod 3 =? 0)%nat
       then String "," (insert_commas rest)
       else insert_commas rest)
  end.

Definition format_thousands (n : Z) : string := insert_commas (pretty n).

(** The price loop of [parse_listing_text]: the range pattern is tried
    first, the single price second; nothing matched leaves [price = '']. *)
Definition extract_price (text : string) : outcome string :=
  match search range_pattern text with
  | Some groups =>
    match py_int (remove_commas (nth 0 groups "")) with
    | Raise e => Raise e
    | Return low =>
      match py_int (remove_commas (nth 1 groups "")) with
      | Raise e => Raise e
      | Return high =>
        match int_of_half (low + high) with
        | Raise e => Raise e
        | Return midpoint => Return (currency +:+ format_thousands midpoint)
        end
      end
    end
  | None =>
    match search single_pattern text with
    | Some groups => Return (currency +:+ nth 0 groups "")
    | None => Return ""
    end
  end.

(** *** Gearbox flag *)

Definition manual_indicators : list string :=
  ["manual"; "stick"; "clutch"; "5-speed"; "6-speed"; "mt"].

Definition auto_indicators : list string :=
  ["automatic"; "auto"; "tiptronic"; "dsg"; "cvt"; "paddle"].

(** [any(indicator in text_lower for indicator in indicators)]. *)
Definition any_in (indicators : list string) (text_lower : string) : bool :=
  existsb (fun indicator => contains indicator text_lower) indicators.

Definition has_manual (text : string) : bool := any_in manual_indicators (lower text).
Definition has_auto (text : string) : bool := any_in auto_indicators (lower text).

(** [manual_gearbox = has_manual and not has_auto]; the source reads the
    value [False] as "unknown". *)
Definition manual_gearbox_of (text : string) : bool :=
  has_manual text && negb (has_auto text).

(** *** Records and the validity filter *)

(** The dict [parse_listing_text] returns. *)
Record vehicle_data : Type := VehicleData {
  make : string;
  model : string;
  production_year : string;
  date_of_sale : string;
  sold_price : string;
  manual_gearbox : bool;
  description : string;
  auction_house : string;
  country_of_sale : string;
  spyder : bool
}.

(** [str.strip]: the whitespace characters are taken off the front, then
    off the end. *)
Fixpoint lstrip (s : string) : string :=
  match s with
  | EmptyString => EmptyString
  | String c1 s1 =>
    if is_space c1 then lstrip s1
    else
      match s1 with
      | String c2 s2 =>
        if is_space2 c1 c2 then lstrip s2
        else
          match s2 with
          | String c3 s3 => if is_space3 c1 c2 c3 then lstrip s3 else s
          | EmptyString => s
          end
      | EmptyString => s
      end
  end.

(** A text of whitespace characters only. *)
Definition all_spaces (s : string) : bool :=
  match lstrip s with EmptyString => true | _ => false end.

Fixpoint rstrip (s : string) : string :=
  match s with
  | EmptyString => EmptyString
  | String c s' => if all_spaces s then EmptyString else String c (rstrip s')
  end.

Definition strip (s : string) : string := rstrip (lstrip s).

(** *** Texts as sequences of characters *)

Definition byte (n : Z) : ascii := ascii_of_nat (Z.to_nat n).

(** The UTF-8 encoding of the character with code point [n]. *)
Definition utf8_char (n : Z) : string :=
  if n <? 128 then String (byte n) ""
  else if n <? 2048 then
    String (byte (192 + n / 64)) (String (byte (128 + n mod 64)) "")
  else if n <? 65536 then
    String (byte (224 + n / 4096))
      (String (byte (128 + (n / 64) mod 64))
         (String (byte (128 + n mod 64)) ""))
  else
    String (byte (240 + n / 262144))
      (String (byte (128 + (n / 4096) mod 64))
         (String (byte (128 + (n / 64) mod 64))
            (String (byte (128 + n mod 64)) ""))).

(** A text, character by character, as the bytes the embedding keeps. *)
Fixpoint utf8 (chars : list Z) : string :=
  match chars with
  | [] => ""
  | c :: rest => utf8_char c +:+ utf8 rest
  end.

(** The code points: [0] to [0x10FFFF]. *)
Definition is_char (n : Z) : Prop := 0 <= n < 1114112.





(** Truth value of a text: it is not empty. *)
Definition truthy (s : string) : bool :=
  match s with EmptyString => false | _ => true end.

Definition has_make_or_model (v : vehicle_data) : bool :=
  truthy (make v) || truthy (model v).
Definition has_year (v : vehicle_data) : bool := truthy (production_year v).
Definition has_price (v : vehicle_data) : bool := truthy (sold_price v).
Definition has_meaningful_description (v : vehicle_data) : bool :=
  (20 <? py_len (strip (description v)))%nat.

(** [sum([...])] of the four flags. *)
Definition criteria_met (v : vehicle_data) : Z :=
  Z.b2z (has_make_or_model v) + Z.b2z (has_year v) + Z.b2z (has_price v)
  + Z.b2z (has_meaningful_description v).

Definition is_valid_vehicle_listing (v : vehicle_data) : bool :=
  2 <=? criteria_met v.

(** One raw listing: the dict the page script returns; a field is [None]
    when its key is absent. *)
Record raw_listing : Type := RawListing {
  raw_index : option Z;
  raw_text : option string
}.

Section Parser.

(** The extractors of [parse_listing_text] that none of the properties below
    looks into: date, year, make and model, body variant, country, auction
    house and description.  None of them raises. *)
Variable extract_auction_date : string -> string.
Variable extract_production_year : string -> string.
Variable extract_make_model_improved : string -> string * string.
Variable extract_is_spyder : string -> bool.
Variable extract_country_improved : string -> string.
Variable extract_auction_house_improved : string -> string.
Variable clean_description_text : string -> string.

(** The builtin [hash] on texts. *)
Variable hash : string -> Z.

(** [parse_listing_text]: only the price can raise. *)
Definition parse_listing_text (text : string) (index : Z) : outcome vehicle_data :=
  let auction_date := extract_auction_date text in
  let production_year := extract_production_year text in
  let make_model := extract_make_model_improved text in
  match extract_price text with
  | Raise e => Raise e
  | Return price =>
    Return (VehicleData (fst make_model) (snd make_model) production_year
              auction_date price (manual_gearbox_of text)
              (clean_description_text text)
              (extract_auction_house_improved text)
              (extract_country_improved text)
              (extract_is_spyder text))
  end.

(** First loop of [process_vehicle_listings]: short texts and texts whose
    first 100 characters hash to a value seen before are skipped; a parse
    that raises is reported and skipped; a parsed record is kept only when
    [is_valid_vehicle_listing] accepts it. *)
Fixpoint collect_valid (raw_listings : list raw_listing)
    (processed_listings : list vehicle_data) (seen_texts : gset Z)
    : list vehicle_data :=
  match raw_listings with
  | [] => processed_listings
  | listing :: rest =>
    let text := strip (default "" (raw_text listing)) in
    if negb (truthy text) || (py_len text <? 30)%nat then
      collect_valid rest processed_listings seen_texts
    else
      let text_hash := hash (py_take 100 text) in
      if decide (text_hash ∈ seen_texts) then
        collect_valid rest processed_listings seen_texts
      else
        let seen_texts := seen_texts ∪ {[text_hash]} in
        match parse_listing_text text (default 0 (raw_index listing)) with
        | Raise _ => collect_valid rest processed_listings seen_texts
        | Return vehicle =>
          if is_valid_vehicle_listing vehicle then
            collect_valid rest (processed_listings ++ [vehicle]) seen_texts
          else collect_valid rest processed_listings seen_texts
        end
  end.

Definition vehicle_key (v : vehicle_data) : string * string * string * string :=
  (lower (make v), lower (model v), production_year v, sold_price v).

(** Second loop: one record per combination of make, model, year and
    price, the first one met. *)
Fixpoint unique_by_key (processed_listings unique_listings : list vehicle_data)
    (seen_vehicles : gset (string * string * string * string))
    : list vehicle_data :=
  match processed_listings with
  | [] => unique_listings
  | listing :: rest =>
    if decide (vehicle_key listing ∈ seen_vehicles) then
      unique_by_key rest unique_listings seen_vehicles
    else
      unique_by_key rest (unique_listings ++ [listing])
        (seen_vehicles ∪ {[vehicle_key listing]})
  end.

Definition process_vehicle_listings (raw_listings : list raw_listing)
    : list vehicle_data :=
  unique_by_key (collect_valid raw_listings [] ∅) [] ∅.

End Parser.

(** ** Sample data *)

Definition ferrari_100k : row := sample_row "Ferrari" "430" "01/07/2024" "£100,000".
Definition ferrari_104k : row := sample_row "Ferrari" "430" "01/07/2024" "£104,000".
Definition ferrari_lowercase_100k : row :=
  sample_row "ferrari" "430" "01/07/2024" "£100,000".
Definition ferrari_no_price : row := sample_row "Ferrari" "430" "01/07/2024" "".
Definition ferrari_poa : row := sample_row "Ferrari" "430" "01/07/2024" "POA".
Definition ferrari_zero : row := sample_row "Ferrari" "430" "01/07/2024" "£0".
Definition porsche_150k : row := sample_row "Porsche" "911" "20/07/2024" "£150,000".

(** The history a run of the Classic.com pipeline consults: the rows of the
    file named after [now] when the run starts, none when there is no such
    file. *)
Definition loaded_history (now : string) (disk : gmap string (file row))
    : list row :=
  match disk !! ("classic_com_" +:+ now +:+ ".csv") with
  | Some (Csv records) => records
  | _ => []
  end.

(** The rows of a batch that [is_duplicate] clears against a fixed history,
    each listing judged on its own. *)
Definition accepted_rows (history : list row) (listing_data : list (option row))
    : list row :=
  flat_map
    (fun item =>
       match item with
       | Some row =>
         match is_duplicate row history with
         | Return false => [row]
         | _ => []
         end
       | None => []
       end)
    listing_data.

Definition one_file (name : string) (records : list row) : gmap string (file row) :=
  {[ name := Csv records ]}.

(** A run with more writes in front of its own. *)
Definition prepend {record A : Type} (ws : list (write record)) (r : run record A)
    : run record A :=
  Run (result r) (after r) (ws ++ writes r).

(** A finished job, for the examples. *)
Definition finished_job (id : string) (records : list row) (total : Z)
    (csv : option string) : job row :=
  Job id completed "Successfully scraped records" 100 total records csv
      "2024-07-01T12:00:00" (Some "2024-07-01T12:05:00") "classic_com" (Some ∅).

Definition twelve_rows : list row := repeat ferrari_100k 12.

Definition world_with_finished_job : world row :=
  World {[ "1a2b3c4d" := finished_job "1a2b3c4d" [ferrari_100k] 1 None ]} ∅.

Definition classic_com_request : ScrapingRequest :=
  Request "classic_com" (Some ∅).
Definition classic_valuer_request : ScrapingRequest :=
  Request "classic_valuer" (Some ∅).

(** A request whose [options] field is [null]. *)
Definition null_options_request : ScrapingRequest := Request "classic_com" None.

(** What a runner leaves behind for job [id] when the job stays in the map:
    it returns, the progress values it wrote never decrease (starting from
    the 0 of the creation), the job ends completed or failed, with progress
    100 exactly when completed, and its progress is the last value written. *)
Definition finishes_job {record : Type} (id : string) (r : run record unit)
    : Prop :=
  result r = Return tt
  /\ Sorted Z.le (0 :: progress_values id (writes r))
  /\ exists j,
       scraping_jobs (after r) !! id = Some j
       /\ (status j = completed \/ status j = failed)
       /\ (progress j = 100 <-> status j = completed)
       /\ last (progress_values id (writes r)) = Some (progress j)
       /\ (status j = failed -> progress j < 100).

(** While the runner waits, nobody else touches the entry of job [id]. *)
Definition keeps {record : Type} (elapse : world record -> world record)
    (id : string) : Prop :=
  forall w', scraping_jobs (elapse w') !! id = scraping_jobs w' !! id.

(** While the runner waits, job [id] is deleted. *)
Definition removes {record : Type} (elapse : world record -> world record)
    (id : string) : Prop :=
  forall w', scraping_jobs (elapse w') !! id = None.

(** The sources [start_scraping] accepts. *)
Definition registered (request : ScrapingRequest) : Prop :=
  req_scraper_type request = "classic_valuer"
  \/ req_scraper_type request = "classic_com".

(** A request that creates a job: its source is registered and its options
    are a dict, or [None] while the real scrapers are not loaded (nothing
    is merged then). *)
Definition creates_job (SCRAPERS_AVAILABLE : bool) (request : ScrapingRequest)
    : Prop :=
  registered request
  /\ (SCRAPERS_AVAILABLE = true -> req_options request <> None).

(** A scraper result with one row, for the examples. *)
Definition one_row_result : scrape_result row :=
  ScrapeResult true 1 (Some "classic_com_20240701_120000.csv")
    (Some [ferrari_100k]) None.

Definition no_jobs : world row := World ∅ ∅.

Definition pending_job (id : string) : job row :=
  Job id pending "classic_com scraping job queued for processing" 0 0 [] None
      "2024-07-01T12:00:00" None "classic_com" (Some ∅).

Definition world_with_pending_job : world row :=
  World {[ "1a2b3c4d" := pending_job "1a2b3c4d" ]} ∅.

(** The effect of a [DELETE /jobs/{id}] request served while a runner
    waits. *)
Definition deleted_meanwhile (id : string) (w : world row) : world row :=
  after (delete_job id w).

(** What [scraper.scrape()] of the Classic Valuer gives back for twelve
    listings: the count, the one fixed file name and the first ten records. *)
Definition valuer_result : scrape_result row :=
  ScrapeResult true 12 (Some "classic_valuer_improved.csv")
    (Some (first_items 10 twelve_rows)) None.

Definition classic_valuer_csv_written (w : world row) : world row :=
  World (scraping_jobs w)
        (<["classic_valuer_improved.csv" := Csv twelve_rows]> (files w)).

(** Two Classic Valuer jobs run one after the other, each scraper writing
    the same file; then the first job is deleted. *)
Definition after_first_valuer_job : world row :=
  after (scrape_job true [] [] "2024-07-01T12:05:00" "20240701_120000"
           classic_valuer_csv_written "aaaaaaaa-0000-4000-8000-000000000000"
           classic_valuer_request (Return valuer_result) no_jobs).

Definition after_second_valuer_job : world row :=
  after (scrape_job true [] [] "2024-07-01T13:05:00" "20240701_130000"
           classic_valuer_csv_written "bbbbbbbb-0000-4000-8000-000000000000"
           classic_valuer_request (Return valuer_result) after_first_valuer_job).

Definition after_first_job_deleted : world row :=
  after (delete_job "aaaaaaaa" after_second_valuer_job).




(** Listing texts for the examples. *)
Definition listing_with_pence_range : string :=
  "27 Jul 2025 1962 Ferrari 250 GT Estimate Â£1,000.50 - Â£2,000.00".
Definition listing_with_whole_range : string :=
  "27 Jul 2025 1962 Ferrari 250 GT Estimate Â£10,000 - Â£15,001".
Definition listing_manual : string :=
  "27 Jul 2025 1962 Ferrari 250 GT, 5-speed manual gearbox".

Definition no_text (text : string) : string := "".
Definition never (text : string) : bool := false.
Definition hash_by_length (text : string) : Z := Z.of_nat (String.length text).

(** ** Further definitions for the properties of the job map *)

(** A task never changes the entry of job [other]. *)
Definition leaves_alone {record A : Type} (other : string) (c : task record A)
    : Prop :=
  forall w, scraping_jobs (after (c w)) !! other = scraping_jobs w !! other.

Definition world_with_two_jobs : world row :=
  World {[ "1a2b3c4d" := finished_job "1a2b3c4d" [ferrari_100k] 1
                           (Some "classic_com_20240701_120000.csv");
           "5e6f7a8b" := pending_job "5e6f7a8b" ]}
        {[ "classic_com_20240701_120000.csv" := Csv [ferrari_100k] ]}.

Definition unknown_source_request : ScrapingRequest := Request "ebay" (Some ∅).

Definition request_with_overrides : ScrapingRequest :=
  Request "classic_com" (Some {[ "page" := PyInt 7 ]}).

Definition failed_result : scrape_result row :=
  ScrapeResult false 0 None None (Some "No valid listings found").

Definition nothing_else_happens (w : world row) : world row := w.

(** ** Further definitions for the properties of the Classic.com pipeline *)

(** The name of the output file of a run. *)
Definition output_csv (now : string) : string := "classic_com_" +:+ now +:+ ".csv".

(** The rows of a batch whose price field has a digit. *)
Definition priced_rows (listing_data : list (option row)) : list row :=
  flat_map
    (fun item =>
       match item with
       | Some row => if truthy (keep_digits (Sold_Price row)) then [row] else []
       | None => []
       end)
    listing_data.

Definition porsche_bad_price : row := sample_row "Porsche" "911" "20/07/2024" "n/a".

(** ** Currency conversion ([classic/classic.py]) *)

(** [convert_usd_to_gbp(usd_price)] for an int [usd_price >= 0], at the
    fixed rate [0.76]: the int becomes the double nearest to it (an
    OverflowError when there is none), the product with the double
    [0.76 = 3422735716801577 / 2^52] is rounded to the nearest double,
    [int] truncates it and the f-string groups the digits by thousands. *)
Definition usd_to_gbp_amount (usd_price : Z) : Z :=
  nearest_double (nearest_double usd_price * 3422735716801577) / 2 ^ 52.

Definition convert_usd_to_gbp (usd_price : Z) : outcome string :=
  if double_limit <=? usd_price then Raise OverflowError
  else Return ("£" +:+ format_thousands (usd_to_gbp_amount usd_price)).

(** ** Further definitions for the properties of the listing parser *)

(** A raw listing passes the length test of [process_vehicle_listings]:
    its stripped text is not empty and has at least 30 characters. *)
Definition long_enough (listing : raw_listing) : bool :=
  truthy (strip (default "" (raw_text listing)))
  && negb (py_len (strip (default "" (raw_text listing))) <? 30)%nat.

Section SeenTexts.

Variable hash : string -> Z.

(** The hash the first loop of [process_vehicle_listings] takes of a
    listing. *)
Definition text_hash (listing : raw_listing) : Z :=
  hash (py_take 100 (strip (default "" (raw_text listing)))).

(** The set [seen_texts] at the end of the first loop. *)
Fixpoint seen_after (raw_listings : list raw_listing) (seen_texts : gset Z)
    : gset Z :=
  match raw_listings with
  | [] => seen_texts
  | listing :: rest =>
    if long_enough listing then seen_after rest (seen_texts ∪ {[text_hash listing]})
    else seen_after rest seen_texts
  end.

End SeenTexts.

Definition short_listing : raw_listing :=
  RawListing (Some 0) (Some "  1962 Ferrari 250 GT  ").

(** A text of 29 characters in 31 bytes. *)
Definition listing_29_characters : raw_listing :=
  RawListing (Some 0) (Some "1962 Ferrari 250 GT Â£10,000.").

(** Extractors for the examples. *)
Definition year_1962 (text : string) : string := "1962".
Definition a_ferrari (text : string) : string * string := ("Ferrari", "250 GT").

(** ** Further definitions for the properties of the price patterns *)

(** Every character of the text is in the class. *)
Fixpoint all_in (member : ascii -> bool) (s : string) : bool :=
  match s with
  | EmptyString => true
  | String c s' => member c && all_in member s'
  end.




(** The no-break space U+00A0. *)
Definition nbsp : string :=
  String (ascii_of_nat 194) (String (ascii_of_nat 160) "").

(** ** Auction houses ([extract_auction_house_improved]) *)

Definition auction_houses : list string :=
  ["Barrett-Jackson"; "RM Sotheby's"; "RM Sothebys"; "Bonhams";
   "Christie's"; "Gooding & Company"; "Mecum"; "Artcurial";
   "Coys"; "H&H"; "Silverstone Auctions"; "Historics";
   "Collecting Cars"; "Bring a Trailer"; "BaT"; "Cars & Bids"].

(** The loop over the houses: the first one whose lower-cased name occurs
    in the lower-cased text, the empty text when there is none. *)
Fixpoint first_house (houses : list string) (text_lower : string) : string :=
  match houses with
  | [] => ""
  | house :: rest =>
    if contains (lower house) text_lower then house
    else first_house rest text_lower
  end.

Definition extract_auction_house_improved (text : string) : string :=
  first_house auction_houses (lower text).





(** ** The script of [classic/classic.py] *)

(** One card of the search page: the link of its anchor, the text of the
    gearbox element (when the card has one) and the texts of its
    [div.flex.items-center] elements. *)
Record listing_card : Type := ListingCard {
  card_href : option string;
  card_gearbox_text : option string;
  card_divs : list string
}.

(** An entry of [results] in step 1. *)
Record listed_item : Type := ListedItem {
  item_url : string;
  item_country : string;
  item_gearbox : string
}.

(** What one iteration of step 1 leaves in [gearbox] and [LHD_RHD]: the
    second [if] is not an [elif], so with two or more elements it overrides
    what the first one set. *)
Definition gearbox_and_side (divs : list string) : option string * string :=
  let gearbox : option string := None in
  let LHD_RHD := "Unknown" in
  let '(gearbox, LHD_RHD) :=
    if (3 <=? length divs)%nat
    then (Some (strip (nth 1 divs "")),
          if (2 <? length divs)%nat then strip (nth 2 divs "") else "Unknown")
    else (gearbox, LHD_RHD) in
  if (2 <=? length divs)%nat
  then (Some "Unknown", strip (nth 1 divs ""))
  else (gearbox, LHD_RHD).

(** [x or "Unknown"] for an [x] that is [None] or a text. *)
Definition or_unknown (x : option string) : string :=
  match x with
  | Some s => if truthy s then s else "Unknown"
  | None => "Unknown"
  end.

Definition card_item (card : listing_card) (href : string) : listed_item :=
  ListedItem ("https://www.classic.com" +:+ href)
             (or_unknown (fst (gearbox_and_side (card_divs card))))
             (match card_gearbox_text card with
              | Some text => strip text
              | None => "Unknown"
              end).

(** Step 1: the loop over the cards.  [LHD_RHD] is a variable of the
    script that every iteration assigns; [None] stands for "not bound yet". *)
Fixpoint collect_links (cards : list listing_card) (results : list listed_item)
    (LHD_RHD : option string) : list listed_item * option string :=
  match cards with
  | [] => (results, LHD_RHD)
  | card :: rest =>
    let side := snd (gearbox_and_side (card_divs card)) in
    match card_href card with
    | Some href =>
      if truthy href
      then collect_links rest (results ++ [card_item card href]) (Some side)
      else collect_links rest results (Some side)
    | None => collect_links rest results (Some side)
    end
  end.

(** What step 2 reads off the page of one listing. *)
Record listing_page : Type := ListingPage {
  page_year : string;
  page_make : string;
  page_model : string;
  page_price_text : string;
  page_sale_date : string;
  page_auction_house : string
}.

(** The row dict of step 2; [LHD_RHD] is the script variable as step 1
    left it. *)
Definition classic_row (item : listed_item) (page : listing_page)
    (price_gbp : string) (LHD_RHD : string) : row :=
  Row (page_make page) (page_model page) (page_year page)
      (page_sale_date page) price_gbp (item_gearbox item) ""
      (page_auction_house page) (item_country item)
      (any_in ["spyder"; "spider"] (lower (page_model page)))
      LHD_RHD.

(** Step 2: [browse] gives what the page of a URL yields, [None] when
    reading it raises inside the [try] (no heading, a title or a date of
    another shape, ...); any exception inside the [try] ends the iteration.
    Opening the page, outside the [try], is taken to succeed.  The price is
    read the way [normalize_price] reads one.  Step 2 runs only for the
    items of step 1, so [LHD_RHD] is bound whenever it is read. *)
Fixpoint scrape_items (browse : string -> option listing_page)
    (existing_entries : list row) (LHD_RHD : string)
    (items : list listed_item) (new_data : list row) : list row :=
  match items with
  | [] => new_data
  | item :: rest =>
    match browse (item_url item) with
    | None => scrape_items browse existing_entries LHD_RHD rest new_data
    | Some page =>
      match normalize_price (page_price_text page) with
      | Raise _ => scrape_items browse existing_entries LHD_RHD rest new_data
      | Return price_usd =>
        match convert_usd_to_gbp price_usd with
        | Raise _ => scrape_items browse existing_entries LHD_RHD rest new_data
        | Return price_gbp =>
          let row := classic_row item page price_gbp LHD_RHD in
          match is_duplicate row existing_entries with
          | Return false =>
              scrape_items browse existing_entries LHD_RHD rest
                (new_data ++ [row])
          | _ => scrape_items browse existing_entries LHD_RHD rest new_data
          end
        end
      end
    end
  end.

(** The rows the script appends to the CSV file. *)
Definition classic_new_data (cards : list listing_card)
    (browse : string -> option listing_page) (existing_entries : list row)
    : list row :=
  let '(results, LHD_RHD) := collect_links cards [] None in
  scrape_items browse existing_entries (default "Unknown" LHD_RHD) results [].

(** ** The page loop and the entry point of the Classic Valuer scraper *)

(** One turn of the loop of [scrape_market_data] as the browser lets it go:
    the raw listings [extract_listings_data] returns (empty when it fails),
    whether [navigate_to_next_page] finds a next page, and whether the pause
    before the next turn raises. *)
Record page_visit : Type := PageVisit {
  visit_raw : list raw_listing;
  visit_has_next : bool;
  visit_pause_raises : bool
}.

Section Scrape.

Variable extract_auction_date : string -> string.
Variable extract_production_year : string -> string.
Variable extract_make_model_improved : string -> string * string.
Variable extract_is_spyder : string -> bool.
Variable extract_country_improved : string -> string.
Variable extract_auction_house : string -> string.
Variable clean_description_text : string -> string.
Variable hash : string -> Z.

(** The [while] loop: [budget] is the number of turns left before
    [page_count] reaches [max_pages].  An exception in the loop is caught by
    the handler of the function, which returns the empty list. *)
Fixpoint scrape_pages (budget : nat) (visits : list page_visit)
    (all_listings : list vehicle_data) : outcome (list vehicle_data) :=
  match budget with
  | O => Return all_listings
  | S budget' =>
    match visits with
    | [] => Return all_listings
    | visit :: rest =>
      match visit_raw visit with
      | [] => Return all_listings
      | raw_listings =>
        let all_listings :=
          all_listings
          ++ process_vehicle_listings extract_auction_date
               extract_production_year extract_make_model_improved
               extract_is_spyder extract_country_improved
               extract_auction_house clean_description_text hash
               raw_listings in
        if visit_has_next visit then
          if visit_pause_raises visit
          then Raise (Exception "wait_for_timeout failed")
          else scrape_pages budget' rest all_listings
        else Return all_listings
      end
    end
  end.

(** [scrape_market_data]: [navigated] is the answer of
    [navigate_to_market]. *)
Definition scrape_market_data (navigated : bool) (max_pages : Z)
    (visits : list page_visit) : list vehicle_data :=
  if navigated then
    match scrape_pages (Z.to_nat max_pages) visits [] with
    | Return all_listings => all_listings
    | Raise _ => []
    end
  else [].

End Scrape.

(** [scrape]: [initialised] is the outcome of [init], [listings] what
    [scrape_market_data] returns and [saved] the outcome of
    [save_results_csv], which returns the one file name it writes to. *)
Definition scrape (initialised : outcome unit) (listings : list vehicle_data)
    (saved : outcome string) : scrape_result vehicle_data :=
  match initialised with
  | Raise e => ScrapeResult false 0 None None (Some (exn_str e))
  | Return _ =>
    match listings with
    | [] => ScrapeResult false 0 None None (Some "No valid listings found")
    | _ =>
      match saved with
      | Raise e => ScrapeResult false 0 None None (Some (exn_str e))
      | Return csv_filename =>
        ScrapeResult true (Z.of_nat (length listings)) (Some csv_filename)
          (Some (first_items 10 listings)) None
      end
    end
  end.

(** The name [save_results_csv] writes to and returns. *)
Definition classic_valuer_csv : string := "classic_valuer_improved.csv".

(** Three pages for the examples, one listing each: one that is followed by
    another page, one after which the pause fails, and a last one. *)
Definition page_with_more : page_visit :=
  PageVisit [RawListing (Some 0) (Some listing_manual)] true false.
Definition page_whose_pause_fails : page_visit :=
  PageVisit [RawListing (Some 0) (Some listing_with_whole_range)] true true.
Definition last_page : page_visit :=
  PageVisit [RawListing (Some 0) (Some listing_with_whole_range)] false false.

(** Two finished jobs that name the same file, as two runs started within
    one second do. *)
Definition world_with_shared_file : world row :=
  World {[ "1a2b3c4d" := finished_job "1a2b3c4d" [ferrari_100k] 1
                           (Some "classic_com_20240701_120000.csv");
           "5e6f7a8b" := finished_job "5e6f7a8b" [porsche_150k] 1
                           (Some "classic_com_20240701_120000.csv") ]}
        {[ "classic_com_20240701_120000.csv" := Csv [porsche_150k] ]}.

(** *** Properties start here *)

(** ** Characters *)

(** [len] counts characters: the pound sign is one character in two
    bytes. *)
Lemma py_len_counts_characters :
  py_len "Est £1,000 - £2,000." = 20%nat
  /\ String.length "Est £1,000 - £2,000." = 22%nat.
Proof. split; reflexivity. Qed.

Lemma py_len_at_most_bytes (s : string) : (py_len s <= String.length s)%nat.
Proof.
  induction s as [|c s IH]; [reflexivity|]. cbn [py_len String.length].
  destruct (is_continuation c); lia.
Qed.

Lemma py_take_prefix (n : nat) (s : string) :
  exists rest, s = py_take n s +:+ rest.
Proof.
  revert n. induction s as [|c s IH]; intros n; [exists ""; reflexivity|].
  cbn [py_take]. destruct (is_continuation c).
  - destruct (IH n) as (rest & Hrest). exists rest.
    change (String c (py_take n s) +:+ rest)
      with (String c (py_take n s +:+ rest)).
    rewrite <- Hrest. reflexivity.
  - destruct n as [|n]; [exists (String c s); reflexivity|].
    destruct (IH n) as (rest & Hrest). exists rest.
    change (String c (py_take n s) +:+ rest)
      with (String c (py_take n s +:+ rest)).
    rewrite <- Hrest. reflexivity.
Qed.

Lemma py_take_length (n : nat) (s : string) :
  (py_len (py_take n s) <= n)%nat.
Proof.
  revert n. induction s as [|c s IH]; intros n; [cbn; lia|].
  cbn [py_take]. destruct (is_continuation c) eqn:Hc.
  - cbn [py_len]. rewrite Hc. apply IH.
  - destruct n as [|n]; [cbn; lia|]. cbn [py_len]. rewrite Hc.
    specialize (IH n). lia.
Qed.

(** *** Whitespace characters *)







(** *** The encoding of a text *)

Lemma byte_value (n : Z) :
  0 <= n < 256 -> Z.of_nat (nat_of_ascii (byte n)) = n.
Proof.
  intros Hn. unfold byte. rewrite nat_ascii_embedding by lia. lia.
Qed.

Ltac bytes :=
  repeat match goal with
         | |- context [Z.of_nat (nat_of_ascii (byte ?x))] =>
           rewrite (byte_value x) by (Z.to_euclidean_division_equations; lia)
         end.

(** The bytes of one character: a first byte that is no continuation byte,
    then continuation bytes only. *)
Lemma utf8_char_shape (n : Z) :
  is_char n ->
  exists first more,
    utf8_char n = String first more
    /\ is_continuation first = false
    /\ all_in is_continuation more = true.
Proof.
  intros Hn. unfold is_char in Hn. unfold utf8_char.
  destruct (Z.ltb_spec n 128); [|destruct (Z.ltb_spec n 2048);
                                  [|destruct (Z.ltb_spec n 65536)]];
    eexists _, _; (split; [reflexivity|]);
    cbn [all_in]; unfold is_continuation; bytes;
    split; Z.to_euclidean_division_equations; lia.
Qed.








(** Opens the encoding of the first character of a text. *)
Ltac first_char c Hc b0 more Heq Hfirst Hmore :=
  destruct (utf8_char_shape c Hc) as (b0 & more & Heq & Hfirst & Hmore);
  cbn [utf8]; rewrite Heq;
  change (String b0 more +:+ ?t) with (String b0 (more +:+ t)).


Lemma py_take_continuation (n : nat) (more t : string) :
  all_in is_continuation more = true ->
  py_take n (more +:+ t) = more +:+ py_take n t.
Proof.
  induction more as [|k more IH]; intros Hmore; [reflexivity|].
  cbn [all_in] in Hmore. apply andb_true_iff in Hmore as [Hk Hmore].
  change (String k more +:+ ?u) with (String k (more +:+ u)).
  cbn [py_take]. rewrite Hk, IH by exact Hmore. reflexivity.
Qed.


(** [s[:n]] is the first [n] characters. *)
Lemma py_take_utf8 (n : nat) (chars : list Z) :
  Forall is_char chars -> py_take n (utf8 chars) = utf8 (firstn n chars).
Proof.
  intros Hall. revert n.
  induction Hall as [|c chars Hc _ IH]; intros n; [destruct n; reflexivity|].
  destruct n as [|n]; cbn [firstn].
  - first_char c Hc b0 more Heq Hfirst Hmore.
    cbn [py_take]. rewrite Hfirst. reflexivity.
  - first_char c Hc b0 more Heq Hfirst Hmore.
    cbn [py_take]. rewrite Hfirst, py_take_continuation by exact Hmore.
    rewrite IH. reflexivity.
Qed.










(** [strip] takes off no-break spaces too. *)
Lemma strip_no_break_space :
  strip (nbsp +:+ " Est £1,000 - £2,000." +:+ nbsp +:+ " ")
  = "Est £1,000 - £2,000.".
Proof. vm_compute. reflexivity. Qed.

(** ** Normalised prices *)

Lemma is_digit_value (c : ascii) : is_digit c = true -> 0 <= digit_value c <= 9.
Proof.
  unfold is_digit, digit_value. intros H.
  apply andb_true_iff in H as [H1 H2].
  apply Z.leb_le in H1, H2. lia.
Qed.

Lemma digits_value_nonneg (s : string) :
  forall acc, 0 <= acc -> all_digits s = true -> 0 <= digits_value acc s.
Proof.
  induction s as [|c s IH]; intros acc Hacc Hall; simpl in *.
  - exact Hacc.
  - apply andb_true_iff in Hall as [Hc Hs].
    apply IH; [|exact Hs].
    pose proof (is_digit_value c Hc). lia.
Qed.

Lemma keep_digits_all_digits (s : string) : all_digits (keep_digits s) = true.
Proof.
  induction s as [|c s IH]; simpl; [reflexivity|].
  destruct (is_digit c) eqn:Hc; simpl; [rewrite Hc|]; exact IH.
Qed.

(** A price text without a digit does not normalise: [int('')] raises. *)
Lemma normalize_price_no_digit (s : string) :
  keep_digits s = "" -> normalize_price s = Raise (ValueError "").
Proof. unfold normalize_price. intros ->. reflexivity. Qed.

(** A price text with a digit normalises to a non-negative int. *)
Lemma normalize_price_some_digit (s : string) :
  keep_digits s <> "" -> exists p, normalize_price s = Return p /\ 0 <= p.
Proof.
  unfold normalize_price, py_int. intros Hne.
  pose proof (keep_digits_all_digits s) as Hall.
  destruct (keep_digits s) as [|c t] eqn:Hk; [congruence|].
  rewrite Hall. eexists; split; [reflexivity|].
  apply digits_value_nonneg; [lia | exact Hall].
Qed.

Lemma normalize_price_nonneg (s : string) (p : Z) :
  normalize_price s = Return p -> 0 <= p.
Proof.
  intros H. destruct (string_dec (keep_digits s) "") as [He|Hne].
  - rewrite (normalize_price_no_digit s He) in H. discriminate.
  - destruct (normalize_price_some_digit s Hne) as (q & Hq & Hpos).
    congruence.
Qed.

(** ** The tolerance test *)

Lemma double_limit_large : 2 ^ 1000 < double_limit.
Proof. vm_compute. reflexivity. Qed.

(** No overflow for prices in the range of the doubles. *)
Lemma true_div_prices (p n : Z) :
  0 <= p < double_limit -> 0 < n ->
  true_div (Z.abs (p - n)) n = Return (Quot (Z.abs (p - n)) n).
Proof.
  intros Hp Hn. unfold true_div.
  destruct (Z.eqb_spec n 0) as [->|_]; [lia|].
  pose proof double_limit_large as HL.
  assert (2 ^ 1000 > 1) by (vm_compute; reflexivity).
  destruct (Z.leb_spec (double_limit * n) (Z.abs (p - n))) as [Hle|_];
    [exfalso; nia | reflexivity].
Qed.

(** Up to [8 * 10^15] the comparison of doubles is the comparison of the
    exact quotient with 5%. *)
Lemma le_0_05_exact (a n : Z) :
  0 < n <= 8000000000000000 ->
  le_0_05 (Quot a n) = true <-> 20 * a <= n.
Proof.
  intros Hn. unfold le_0_05; simpl.
  rewrite Z.leb_le.
  change (2 ^ 58) with 288230376151711744. lia.
Qed.

(** At every size, 5% or less passes and 6% or more fails. *)
Lemma le_0_05_below (a n : Z) :
  0 < n -> 20 * a <= n -> le_0_05 (Quot a n) = true.
Proof.
  intros Hn Ha. unfold le_0_05; simpl. apply Z.leb_le.
  change (2 ^ 58) with 288230376151711744. lia.
Qed.

Lemma le_0_05_above (a n : Z) :
  0 < n -> 6 * n <= 100 * a -> le_0_05 (Quot a n) = false.
Proof.
  intros Hn Ha. unfold le_0_05; simpl. apply Z.leb_gt.
  change (2 ^ 58) with 288230376151711744. lia.
Qed.

(** ** The duplicate test *)

Lemma key_test_same_key (a b : row) :
  String.eqb (Make a) (Make b) && String.eqb (Model a) (Model b)
  && String.eqb (Date_of_Sale a) (Date_of_Sale b) = true <-> same_key a b.
Proof.
  unfold same_key. rewrite !andb_true_iff, !String.eqb_eq. tauto.
Qed.

Lemma is_duplicate_from_returns (candidate : row) (new_price : Z)
    (history : list row) :
  0 < new_price ->
  Forall (fun e => exists p, normalize_price (Sold_Price e) = Return p
                             /\ p < double_limit) history ->
  exists b, is_duplicate_from candidate new_price history = Return b
            /\ (b = true <-> Exists (matches candidate new_price) history).
Proof.
  intros Hn Hall. induction Hall as [|e rest (p & Hp & Hlim) _ IH]; simpl.
  - exists false. split; [reflexivity|]. split; [discriminate|].
    intros H. inversion H.
  - rewrite Hp. destruct IH as (b & Hb & Hiff).
    pose proof (normalize_price_nonneg _ _ Hp) as Hpos.
    destruct (String.eqb (Make candidate) (Make e)
              && String.eqb (Model candidate) (Model e)
              && String.eqb (Date_of_Sale candidate) (Date_of_Sale e)) eqn:Hkey.
    + rewrite true_div_prices by lia.
      apply key_test_same_key in Hkey.
      destruct (le_0_05 (Quot (Z.abs (p - new_price)) new_price)) eqn:Hle.
      * exists true. split; [reflexivity|]. split; [|reflexivity].
        intros _. apply Exists_cons_hd. split; [exact Hkey|]. eauto.
      * exists b. split; [exact Hb|]. rewrite Hiff. split.
        -- apply Exists_cons_tl.
        -- intros H. inversion H as [? ? Hm|? ? Hm]; subst; [|exact Hm].
           destruct Hm as (_ & q & Hq & Hqle). congruence.
    + exists b. split; [exact Hb|]. rewrite Hiff. split.
      * apply Exists_cons_tl.
      * intros H. inversion H as [? ? Hm|? ? Hm]; subst; [|exact Hm].
        destruct Hm as (Hk & _). apply key_test_same_key in Hk. congruence.
Qed.

Lemma is_duplicate_single (candidate e : row) (new_price p : Z) :
  normalize_price (Sold_Price candidate) = Return new_price ->
  0 < new_price ->
  same_key candidate e ->
  normalize_price (Sold_Price e) = Return p ->
  p < double_limit ->
  is_duplicate candidate [e]
  = Return (le_0_05 (Quot (Z.abs (p - new_price)) new_price)).
Proof.
  intros Hc Hn Hk Hp Hlim. unfold is_duplicate. rewrite Hc. simpl. rewrite Hp.
  apply key_test_same_key in Hk. rewrite Hk.
  pose proof (normalize_price_nonneg _ _ Hp).
  rewrite true_div_prices by lia.
  destruct (le_0_05 _); reflexivity.
Qed.

(** C1 (amended): for a candidate whose price normalises to a positive
    int and a history whose prices all normalise (below the range of the
    doubles), [is_duplicate] returns, and it returns [True] exactly when some
    history record has the same make, model and sale date -- compared with
    [==], so case matters -- and the double [|existing - new| / new] is at
    most the double [0.05].  For a candidate price up to [8 * 10^15] that
    test is [|existing - new| / new <= 5%] on the exact quotient.  Against a
    single record with the same key, a difference below 5% of the new price
    gives [True] and one of 6% or more gives [False]. *)
Theorem is_duplicate_exact_key_within_tolerance
    (candidate : row) (history : list row) (new_price : Z) :
  normalize_price (Sold_Price candidate) = Return new_price ->
  0 < new_price ->
  Forall (fun e => exists p, normalize_price (Sold_Price e) = Return p
                             /\ p < double_limit) history ->
  exists b,
    is_duplicate candidate history = Return b
    /\ (b = true <-> Exists (matches candidate new_price) history)
    /\ (new_price <= 8000000000000000 ->
        (b = true <->
         exists e p, In e history /\ same_key candidate e
                     /\ normalize_price (Sold_Price e) = Return p
                     /\ within_5_percent p new_price))
    /\ (forall e p,
          same_key candidate e ->
          normalize_price (Sold_Price e) = Return p ->
          p < double_limit ->
          (20 * Z.abs (p - new_price) < new_price ->
           is_duplicate candidate [e] = Return true)
          /\ (6 * new_price <= 100 * Z.abs (p - new_price) ->
              is_duplicate candidate [e] = Return false)).
Proof.
  intros Hc Hn Hall.
  destruct (is_duplicate_from_returns candidate new_price history Hn Hall)
    as (b & Hb & Hiff).
  exists b. split; [unfold is_duplicate; rewrite Hc; exact Hb|].
  split; [exact Hiff|]. split.
  - intros Hbound. rewrite Hiff, Exists_exists. split.
    + intros (e & Hin & Hk & p & Hp & Hle).
      exists e, p. split; [apply list_elem_of_In; exact Hin|].
      split; [exact Hk|]. split; [exact Hp|].
      apply le_0_05_exact in Hle; [exact Hle | lia].
    + intros (e & p & Hin & Hk & Hp & Hw).
      exists e. split; [apply list_elem_of_In; exact Hin|].
      split; [exact Hk|]. exists p. split; [exact Hp|].
      apply le_0_05_exact; [lia | exact Hw].
  - intros e p Hk Hp Hlim.
    rewrite (is_duplicate_single candidate e new_price p Hc Hn Hk Hp Hlim).
    split; intros H.
    + rewrite le_0_05_below; [reflexivity | lia | lia].
    + rewrite le_0_05_above; [reflexivity | lia | lia].
Qed.

Lemma is_duplicate_exact_key_within_tolerance_witness :
  exists b,
    is_duplicate ferrari_100k [porsche_150k; ferrari_104k] = Return b
    /\ (b = true <-> Exists (matches ferrari_100k 100000) [porsche_150k; ferrari_104k])
    /\ (100000 <= 8000000000000000 ->
        (b = true <->
         exists e p, In e [porsche_150k; ferrari_104k] /\ same_key ferrari_100k e
                     /\ normalize_price (Sold_Price e) = Return p
                     /\ within_5_percent p 100000))
    /\ (forall e p,
          same_key ferrari_100k e ->
          normalize_price (Sold_Price e) = Return p ->
          p < double_limit ->
          (20 * Z.abs (p - 100000) < 100000 ->
           is_duplicate ferrari_100k [e] = Return true)
          /\ (6 * 100000 <= 100 * Z.abs (p - 100000) ->
              is_duplicate ferrari_100k [e] = Return false)).
Proof.
  apply (is_duplicate_exact_key_within_tolerance
           ferrari_100k [porsche_150k; ferrari_104k] 100000).
  - reflexivity.
  - lia.
  - repeat constructor.
    + exists 150000. split; [reflexivity | vm_compute; reflexivity].
    + exists 104000. split; [reflexivity | vm_compute; reflexivity].
Defined.

(** Case matters: a history record that differs from the candidate
    only in the case of the make, with the same price, satisfies the
    case-insensitive condition of the claim, and [is_duplicate] returns
    [False]. *)
Lemma is_duplicate_case_counterexample :
  is_duplicate ferrari_lowercase_100k [ferrari_100k] = Return false
  /\ exists e p n,
       In e [ferrari_100k]
       /\ same_key_nocase ferrari_lowercase_100k e
       /\ normalize_price (Sold_Price e) = Return p
       /\ normalize_price (Sold_Price ferrari_lowercase_100k) = Return n
       /\ within_5_percent p n.
Proof.
  split; [vm_compute; reflexivity|].
  exists ferrari_100k, 100000, 100000.
  split; [left; reflexivity|].
  split; [repeat split|].
  split; [reflexivity|]. split; [reflexivity|].
  unfold within_5_percent. simpl. lia.
Qed.

(** ** Prices that do not normalise *)

Lemma is_duplicate_from_no_key (candidate : row) (new_price : Z)
    (history : list row) :
  Forall (fun e => exists p, normalize_price (Sold_Price e) = Return p) history ->
  Forall (fun e => ~ same_key candidate e) history ->
  is_duplicate_from candidate new_price history = Return false.
Proof.
  intros Hall. induction Hall as [|e rest (p & Hp) _ IH]; intros Hkeys; simpl.
  - reflexivity.
  - inversion Hkeys as [|? ? Hk Hrest]; subst. rewrite Hp.
    destruct (String.eqb (Make candidate) (Make e)
              && String.eqb (Model candidate) (Model e)
              && String.eqb (Date_of_Sale candidate) (Date_of_Sale e)) eqn:Hkey.
    + apply key_test_same_key in Hkey. contradiction.
    + apply IH. exact Hrest.
Qed.

(** C2 (amended): a candidate whose price field has no digit makes
    [is_duplicate] raise ValueError whatever the history is, and the handler
    of the listing loop then skips the listing: nothing is appended for it
    and the loop goes on with the next one.  A candidate whose price
    normalises to zero gets [False] when every history price normalises and
    no history record has its make, model and sale date. *)
Theorem is_duplicate_unusable_price (candidate : row) (history : list row) :
  (keep_digits (Sold_Price candidate) = "" ->
   is_duplicate candidate history = Raise (ValueError "")
   /\ forall rest new_data results,
        scrape_listings history (Some candidate :: rest) new_data results
        = scrape_listings history rest new_data results)
  /\ (normalize_price (Sold_Price candidate) = Return 0 ->
      Forall (fun e => exists p, normalize_price (Sold_Price e) = Return p) history ->
      Forall (fun e => ~ same_key candidate e) history ->
      is_duplicate candidate history = Return false).
Proof.
  split.
  - intros H.
    assert (Hraise : is_duplicate candidate history = Raise (ValueError "")).
    { unfold is_duplicate. rewrite (normalize_price_no_digit _ H). reflexivity. }
    split; [exact Hraise|].
    intros rest new_data results. cbn [scrape_listings]. rewrite Hraise.
    reflexivity.
  - intros H Hall Hkeys. unfold is_duplicate. rewrite H.
    apply is_duplicate_from_no_key; assumption.
Qed.

Lemma is_duplicate_unusable_price_witness :
  (is_duplicate ferrari_poa [ferrari_100k] = Raise (ValueError "")
   /\ scrape_listings [ferrari_100k] [Some ferrari_poa; Some porsche_150k] [] []
      = scrape_listings [ferrari_100k] [Some porsche_150k] [] [])
  /\ is_duplicate ferrari_zero [porsche_150k] = Return false.
Proof.
  split.
  - destruct (proj1 (is_duplicate_unusable_price ferrari_poa [ferrari_100k])
                eq_refl) as [Hraise Hskip].
    split; [exact Hraise | apply Hskip].
  - apply (proj2 (is_duplicate_unusable_price ferrari_zero [porsche_150k])).
    + reflexivity.
    + repeat constructor. exists 150000. reflexivity.
    + repeat constructor. intros (H & _). discriminate H.
Defined.

(** The call can raise: with an empty or a non-numeric price the call
    raises ValueError, even on an empty history, and with a zero price it
    raises ZeroDivisionError at the first history record with the same
    key; in none of the three cases does it return [False]. *)
Lemma is_duplicate_raises_counterexample :
  is_duplicate ferrari_no_price [] = Raise (ValueError "")
  /\ is_duplicate ferrari_poa [ferrari_100k] = Raise (ValueError "")
  /\ is_duplicate ferrari_zero [ferrari_100k] = Raise ZeroDivisionError
  /\ is_duplicate ferrari_no_price [] <> Return false
  /\ is_duplicate ferrari_zero [ferrari_100k] <> Return false.
Proof. repeat split; vm_compute; (reflexivity || discriminate). Qed.

(** ** The Classic.com pipeline *)

Lemma scrape_listings_accepted (history : list row)
    (listing_data : list (option row)) :
  forall new_data results,
    scrape_listings history listing_data new_data results
    = (new_data ++ accepted_rows history listing_data,
       results ++ accepted_rows history listing_data).
Proof.
  induction listing_data as [|item rest IH]; intros new_data results; simpl.
  - rewrite !app_nil_r. reflexivity.
  - destruct item as [row|]; [|apply IH].
    destruct (is_duplicate row history) as [[|]|e]; simpl; try apply IH.
    rewrite IH, <- !app_assoc. reflexivity.
Qed.

Lemma accepted_rows_app (history : list row) (l1 l2 : list (option row)) :
  accepted_rows history (l1 ++ l2)
  = accepted_rows history l1 ++ accepted_rows history l2.
Proof. unfold accepted_rows. apply flat_map_app. Qed.

Lemma run_classic_com_results (now : string) (disk : gmap string (file row))
    (listing_data : list (option row)) :
  (forall why, disk !! ("classic_com_" +:+ now +:+ ".csv") <> Some (Garbled why)) ->
  res_results (fst (run_classic_com_scraper_real now disk (Return listing_data)))
  = Some (accepted_rows (loaded_history now disk) listing_data).
Proof.
  intros Hok. unfold run_classic_com_scraper_real, loaded_history.
  destruct (disk !! ("classic_com_" +:+ now +:+ ".csv")) as [[records|why]|] eqn:Hf.
  - rewrite scrape_listings_accepted. simpl.
    destruct (accepted_rows records listing_data); reflexivity.
  - exfalso. exact (Hok why eq_refl).
  - rewrite scrape_listings_accepted. simpl.
    destruct (accepted_rows [] listing_data); reflexivity.
Qed.

(** C10: in one run of the Classic.com pipeline the history that
    [is_duplicate] consults is the content of the output file (named after
    the clock) at the start of the run; the rows the run accepts are never
    added to it.  So the result is every listing judged on its own against
    that history: the decision on a later part of the batch does not depend
    on what was accepted from the earlier part, and a row that is accepted
    once is accepted again when the batch repeats it. *)
Theorem classic_com_history_fixed (now : string) (disk : gmap string (file row))
    (listing_data : list (option row)) :
  (forall why, disk !! ("classic_com_" +:+ now +:+ ".csv") <> Some (Garbled why)) ->
  res_results (fst (run_classic_com_scraper_real now disk (Return listing_data)))
  = Some (accepted_rows (loaded_history now disk) listing_data)
  /\ (forall earlier later,
        listing_data = earlier ++ later ->
        res_results (fst (run_classic_com_scraper_real now disk (Return listing_data)))
        = Some (accepted_rows (loaded_history now disk) earlier
                ++ accepted_rows (loaded_history now disk) later))
  /\ (forall row,
        is_duplicate row (loaded_history now disk) = Return false ->
        res_results
          (fst (run_classic_com_scraper_real now disk (Return [Some row; Some row])))
        = Some [row; row]).
Proof.
  intros Hok. split; [apply run_classic_com_results; exact Hok|]. split.
  - intros earlier later ->.
    rewrite run_classic_com_results by exact Hok.
    rewrite accepted_rows_app. reflexivity.
  - intros row Hrow.
    rewrite run_classic_com_results by exact Hok.
    simpl. rewrite Hrow. reflexivity.
Qed.

Lemma classic_com_history_fixed_witness :
  res_results
    (fst (run_classic_com_scraper_real "20240701_120000"
            (one_file "classic_com_20240701_120000.csv" [porsche_150k])
            (Return [Some ferrari_100k; None; Some ferrari_100k])))
  = Some [ferrari_100k; ferrari_100k].
Proof.
  refine (proj1 (classic_com_history_fixed "20240701_120000"
                   (one_file "classic_com_20240701_120000.csv" [porsche_150k])
                   [Some ferrari_100k; None; Some ferrari_100k] _)).
  intros why H. vm_compute in H. discriminate H.
Defined.

(** ** Running code on the job map *)

Section RegistryProperties.

Context {record : Type}.

Implicit Types (w : world record) (j : job record) (a : assignment record).

Lemma prepend_nil {A : Type} (r : run record A) : prepend [] r = r.
Proof. destruct r. reflexivity. Qed.

Lemma setitem_present w id a j :
  scraping_jobs w !! id = Some j ->
  setitem id a w
  = Run (Return tt) (World (<[id := assign a j]> (scraping_jobs w)) (files w))
        [SetItem id a].
Proof. intros H. unfold setitem. rewrite H. reflexivity. Qed.

(** An item assignment on a job that is not in the map raises KeyError and
    leaves the world as it is. *)
Lemma setitem_missing w id a :
  scraping_jobs w !! id = None ->
  setitem id a w = Run (Raise (KeyError id)) w [].
Proof. intros H. unfold setitem. rewrite H. reflexivity. Qed.

Lemma bind_setitem_present {B : Type} w id a j (k : unit -> task record B) :
  scraping_jobs w !! id = Some j ->
  bind (setitem id a) k w
  = prepend [SetItem id a]
      (k tt (World (<[id := assign a j]> (scraping_jobs w)) (files w))).
Proof.
  intros H. unfold bind. rewrite (setitem_present w id a j H). reflexivity.
Qed.

Lemma bind_setitem_missing {B : Type} w id a (k : unit -> task record B) :
  scraping_jobs w !! id = None ->
  bind (setitem id a) k w = Run (Raise (KeyError id)) w [].
Proof.
  intros H. unfold bind. rewrite (setitem_missing w id a H). reflexivity.
Qed.

Lemma bind_wait_return {A B : Type} (elapse : world record -> world record)
    (x : A) (k : A -> task record B) w :
  bind (wait_for elapse (Return x)) k w = k x (elapse w).
Proof. unfold bind, wait_for. simpl. apply (prepend_nil (k x (elapse w))). Qed.

Lemma bind_wait_raise {A B : Type} (elapse : world record -> world record)
    (e : exn) (k : A -> task record B) w :
  bind (wait_for elapse (Raise e)) k w = Run (Raise e) (elapse w) [].
Proof. reflexivity. Qed.

Lemma bind_ret {A B : Type} (x : A) (k : A -> task record B) w :
  bind (ret x) k w = k x w.
Proof. unfold bind, ret. simpl. apply (prepend_nil (k x w)). Qed.

Lemma bind_raise {A B : Type} (e : exn) (k : A -> task record B) w :
  bind (raise e) k w = Run (Raise e) w [].
Proof. reflexivity. Qed.

Lemma bind_store {B : Type} w id j (k : unit -> task record B) :
  bind (store id j) k w
  = prepend [Store id j] (k tt (World (<[id := j]> (scraping_jobs w)) (files w))).
Proof. reflexivity. Qed.

Lemma bind_bind {A B C : Type} (c : task record A) (k1 : A -> task record B)
    (k2 : B -> task record C) w :
  bind (bind c k1) k2 w = bind c (fun x => bind (k1 x) k2) w.
Proof.
  unfold bind. destruct (c w) as [[x|e] w1 ws1]; simpl; [|reflexivity].
  destruct (k1 x w1) as [[y|e] w2 ws2]; simpl; [|reflexivity].
  rewrite app_assoc. reflexivity.
Qed.

End RegistryProperties.

(** ** Creating a job *)

Section Create.

Context {record : Type}.

(** What [start_scraping] does for a request that creates a job. *)
Lemma start_scraping_stores (SCRAPERS_AVAILABLE : bool)
    (now_iso uuid4 : string) (request : ScrapingRequest) (w : world record) :
  creates_job SCRAPERS_AVAILABLE request ->
  exists response new_job,
    start_scraping SCRAPERS_AVAILABLE now_iso uuid4 request w
    = Run (Return response)
          (World (<[String.substring 0 8 uuid4 := new_job]> (scraping_jobs w))
                 (files w))
          [Store (String.substring 0 8 uuid4) new_job]
    /\ resp_job_id response = String.substring 0 8 uuid4
    /\ job_id new_job = String.substring 0 8 uuid4
    /\ status new_job = pending
    /\ progress new_job = 0.
Proof.
  intros [Htype Hoptions]. unfold start_scraping. cbv zeta.
  assert (Hsource :
    exists options,
      (if String.eqb (req_scraper_type request) "classic_valuer" then
         merged_options SCRAPERS_AVAILABLE CLASSIC_VALUER_DEFAULT_OPTIONS request
       else if String.eqb (req_scraper_type request) "classic_com" then
         merged_options SCRAPERS_AVAILABLE CLASSIC_COM_DEFAULT_OPTIONS request
       else
         raise (HTTPException 400
                  "Invalid scraper type. Use 'classic_valuer' or 'classic_com'"))
      = (ret options : task record _)).
  { unfold merged_options.
    destruct Htype as [-> | ->]; cbn [String.eqb Ascii.eqb Bool.eqb];
      (destruct SCRAPERS_AVAILABLE; [|eauto]);
      (destruct (req_options request); [eauto|]);
      exfalso; apply Hoptions; reflexivity. }
  destruct Hsource as (options & ->).
  eexists _, _.
  rewrite !bind_ret, !bind_store.
  unfold prepend, ret. cbn [result after writes scraping_jobs files app].
  split; [reflexivity|]. cbn. repeat split.
Qed.

(** With the real scrapers loaded, a request whose options are [None]
    creates nothing: the merge with the defaults raises TypeError. *)
Lemma start_scraping_null_options (now_iso uuid4 : string)
    (request : ScrapingRequest) (w : world record) :
  registered request ->
  req_options request = None ->
  start_scraping true now_iso uuid4 request w
  = Run (Raise (TypeError "'NoneType' object is not a mapping")) w [].
Proof.
  intros Htype Hnone. unfold start_scraping, merged_options. cbv zeta.
  rewrite Hnone.
  destruct Htype as [-> | ->]; cbn [String.eqb Ascii.eqb Bool.eqb];
    rewrite bind_raise; reflexivity.
Qed.

(** C4 (amended): for a request with a registered source whose options are
    a dict ([None] will do while the real scrapers are not loaded)
    [start_scraping] succeeds: it answers with the generated id (the first
    eight characters of the UUID text) and stores a new pending job with
    progress 0 under it.  The store is unconditional -- there is no look-up
    of the id and no second draw -- so whatever job was in the map under
    that id is replaced by the new one; the jobs under other ids and the
    files are untouched. *)
Theorem start_scraping_stores_unconditionally (SCRAPERS_AVAILABLE : bool)
    (now_iso uuid4 : string) (request : ScrapingRequest) (w : world record) :
  creates_job SCRAPERS_AVAILABLE request ->
  exists response new_job,
    start_scraping SCRAPERS_AVAILABLE now_iso uuid4 request w
    = Run (Return response)
          (World (<[String.substring 0 8 uuid4 := new_job]> (scraping_jobs w))
                 (files w))
          [Store (String.substring 0 8 uuid4) new_job]
    /\ resp_job_id response = String.substring 0 8 uuid4
    /\ job_id new_job = String.substring 0 8 uuid4
    /\ status new_job = pending
    /\ progress new_job = 0
    /\ scraping_jobs
         (after (start_scraping SCRAPERS_AVAILABLE now_iso uuid4 request w))
       !! String.substring 0 8 uuid4 = Some new_job
    /\ forall other,
         other <> String.substring 0 8 uuid4 ->
         scraping_jobs
           (after (start_scraping SCRAPERS_AVAILABLE now_iso uuid4 request w))
         !! other = scraping_jobs w !! other.
Proof.
  intros Hcreates.
  destruct (start_scraping_stores SCRAPERS_AVAILABLE now_iso uuid4 request w
              Hcreates)
    as (response & new_job & Hrun & Hresp & Hid & Hstatus & Hprogress).
  exists response, new_job. rewrite Hrun. cbn [after scraping_jobs].
  repeat (split; [first [reflexivity | assumption]|]).
  split; [apply lookup_insert_eq|].
  intros other Hne. apply lookup_insert_ne. congruence.
Qed.

End Create.

Lemma start_scraping_stores_unconditionally_witness :
  exists response new_job,
    start_scraping true "2024-07-02T09:00:00" "1a2b3c4d-0000-4000-8000-000000000000"
      classic_com_request world_with_finished_job
    = Run (Return response)
        (World (<["1a2b3c4d" := new_job]> (scraping_jobs world_with_finished_job))
               (files world_with_finished_job))
        [Store "1a2b3c4d" new_job]
    /\ status new_job = pending.
Proof.
  destruct (start_scraping_stores_unconditionally (record := row) true
              "2024-07-02T09:00:00" "1a2b3c4d-0000-4000-8000-000000000000"
              classic_com_request world_with_finished_job)
    as (response & new_job & Heq & _ & _ & Hst & _).
  - split; [right; reflexivity | discriminate].
  - exists response, new_job. split; [exact Heq | exact Hst].
Defined.

(** A collision replaces the job: the map holds a finished job under
    [1a2b3c4d]; a request whose UUID starts with the same eight characters
    succeeds under that id, and afterwards the map holds the new pending job
    there and the finished one is gone. *)
Lemma start_scraping_collision_counterexample :
  (exists old,
     scraping_jobs world_with_finished_job !! "1a2b3c4d" = Some old
     /\ status old = completed /\ total_records old = 1)
  /\ exists response new,
       result (start_scraping true "2024-07-02T09:00:00"
                 "1a2b3c4d-0000-4000-8000-000000000000"
                 classic_com_request world_with_finished_job)
       = Return response
       /\ resp_job_id response = "1a2b3c4d"
       /\ scraping_jobs
            (after (start_scraping true "2024-07-02T09:00:00"
                      "1a2b3c4d-0000-4000-8000-000000000000"
                      classic_com_request world_with_finished_job))
          !! "1a2b3c4d" = Some new
       /\ status new = pending /\ total_records new = 0.
Proof.
  split.
  - eexists. split; [vm_compute; reflexivity|]. split; reflexivity.
  - eexists _, _. split; [vm_compute; reflexivity|].
    split; [reflexivity|]. split; [vm_compute; reflexivity|].
    split; reflexivity.
Qed.

(** ** Runners *)

Section RunnerProperties.

Context {record : Type}.

Implicit Types (w : world record) (j : job record) (a : assignment record).

Lemma try_except_run {A : Type} (body : task record A)
    (handler : exn -> task record A) w res w' ws :
  body w = Run res w' ws ->
  try_except body handler w
  = match res with
    | Return _ => Run res w' ws
    | Raise e => prepend ws (handler e w')
    end.
Proof.
  intros H. unfold try_except. rewrite H. simpl. destruct res; reflexivity.
Qed.

Lemma bind_try_except {A B : Type} (body : task record A)
    (handler : exn -> task record A) (k : A -> task record B) w res w' ws :
  body w = Run res w' ws ->
  bind (try_except body handler) k w
  = match res with
    | Return x => prepend ws (k x w')
    | Raise e => prepend ws (bind (handler e) k w')
    end.
Proof.
  intros H. unfold bind at 1. rewrite (try_except_run body handler _ _ _ _ H).
  destruct res as [x|e]; simpl; [reflexivity|].
  unfold bind, prepend. destruct (handler e w') as [[y|e'] w2 ws2]; simpl.
  - rewrite app_assoc. reflexivity.
  - reflexivity.
Qed.

Lemma prepend_run {A : Type} (ws ws' : list (write record)) (res : outcome A) w :
  prepend ws (Run res w ws') = Run res w (ws ++ ws').
Proof. reflexivity. Qed.

Lemma bind_simulate_classic_com {B : Type} (records : list record)
    (now_stamp : string) (elapse : world record -> world record)
    (k : scrape_result record -> task record B) w :
  bind (simulate_classic_com_scraper records now_stamp elapse) k w
  = k (ScrapeResult true (Z.of_nat (length records))
         (Some ("classic_com_sim_" +:+ now_stamp +:+ ".csv")) (Some records) None)
      (World (scraping_jobs (elapse w))
             (<["classic_com_sim_" +:+ now_stamp +:+ ".csv" := Csv records]>
                (files (elapse w)))).
Proof.
  unfold bind, simulate_classic_com_scraper.
  cbn [result after writes app]. apply prepend_nil.
Qed.

End RunnerProperties.

(** Symbolic execution of a runner: [lk] settles the look-ups of the job id
    in the job map. *)
Ltac exec lk :=
  repeat first
    [ progress cbn [scraping_jobs files result after writes app success records_found
                    res_csv_file res_results error results_item
                    results_or_empty error_text]
    | rewrite prepend_run
    | rewrite bind_bind
    | erewrite bind_setitem_present by lk
    | erewrite bind_setitem_missing by lk
    | erewrite setitem_present by lk
    | erewrite setitem_missing by lk
    | rewrite bind_wait_return
    | rewrite bind_wait_raise
    | rewrite bind_simulate_classic_com
    | rewrite bind_ret
    | rewrite bind_raise
    | match goal with
      | |- context [bind (try_except ?b ?h) ?k ?w] =>
        let H := fresh "Hbody" in
        eassert (b w = _) as H by (exec lk; reflexivity);
        rewrite (bind_try_except b h k w _ _ _ H); clear H
      | |- context [try_except ?b ?h ?w] =>
        let H := fresh "Hbody" in
        eassert (b w = _) as H by (exec lk; reflexivity);
        rewrite (try_except_run b h w _ _ _ H); clear H
      end ].

Ltac lookup_kept Hel :=
  cbn [scraping_jobs]; rewrite ?Hel; cbn [scraping_jobs];
  first [eassumption | apply lookup_insert_eq].

Ltac lookup_gone Hdel :=
  cbn [scraping_jobs];
  first [eassumption | apply lookup_insert_eq | apply Hdel].

Ltac finish_job :=
  unfold finishes_job; cbn [result after writes scraping_jobs files];
  split; [reflexivity|];
  split;
    [ cbn [progress_values]; rewrite ?String.eqb_refl;
      repeat constructor; lia |];
  eexists; split; [apply lookup_insert_eq|];
  match goal with j : job _ |- _ => destruct j end;
  cbn [assign status progress progress_values];
  rewrite ?String.eqb_refl;
  repeat split; intros; try discriminate; try lia; auto.

Ltac finish_gone Hdel :=
  cbn [result after writes scraping_jobs files];
  split; [reflexivity|];
  split; [apply Hdel|];
  eexists; cbn [scraping_jobs]; reflexivity.

Section RunnerProgress.

Context {record : Type}.
Variable SCRAPERS_AVAILABLE : bool.
Variables simulated_valuer_records simulated_com_records : list record.
Variables now_iso now_stamp : string.
Variable elapse : world record -> world record.

Lemma run_classic_valuer_background_finishes (id : string)
    (scraped : outcome (scrape_result record)) (w : world record)
    (j : job record) :
  keeps elapse id ->
  scraping_jobs w !! id = Some j ->
  finishes_job id
    (run_classic_valuer_background SCRAPERS_AVAILABLE simulated_valuer_records
       now_iso now_stamp elapse id scraped w).
Proof.
  intros Hel Hw. unfold keeps in Hel.
  unfold run_classic_valuer_background, scrape_classic_valuer_background,
    runner_failed, simulate_classic_valuer_scraper.
  destruct SCRAPERS_AVAILABLE;
    [destruct scraped as [[suc n cf rr err]|e]; [destruct suc|]|];
    exec ltac:(lookup_kept Hel); finish_job.
Qed.

Lemma run_classic_com_background_finishes (id : string)
    (scraped : outcome (scrape_result record)) (w : world record)
    (j : job record) :
  keeps elapse id ->
  scraping_jobs w !! id = Some j ->
  finishes_job id
    (run_classic_com_background SCRAPERS_AVAILABLE simulated_com_records
       now_iso now_stamp elapse id scraped w).
Proof.
  intros Hel Hw. unfold keeps in Hel.
  unfold run_classic_com_background, scrape_classic_com_background,
    runner_failed.
  destruct SCRAPERS_AVAILABLE;
    [destruct scraped as [[suc n cf [rr|] err]|e]; [destruct suc|destruct suc|]|];
    exec ltac:(lookup_kept Hel); finish_job.
Qed.

Lemma scheduled_runner_finishes (request : ScrapingRequest) (id : string)
    (scraped : outcome (scrape_result record)) (w : world record)
    (j : job record) :
  registered request ->
  keeps elapse id ->
  scraping_jobs w !! id = Some j ->
  finishes_job id
    (scheduled_runner SCRAPERS_AVAILABLE simulated_valuer_records
       simulated_com_records now_iso now_stamp elapse request id scraped w).
Proof.
  intros [Ht|Ht] Hel Hw; unfold scheduled_runner; rewrite Ht; simpl.
  - eapply run_classic_valuer_background_finishes; eassumption.
  - eapply run_classic_com_background_finishes; eassumption.
Qed.

(** C5: over the lifetime of one job -- the request that creates it, then
    the runner scheduled for it, while nothing else writes to its entry -- the
    progress values written start at 0 and never decrease; the runner
    returns and leaves the job completed or failed; the final progress is the
    last value written, it is 100 exactly when the final status is
    completed, and a failed job keeps a value below 100. *)
Theorem job_progress_never_decreases (uuid4 : string)
    (request : ScrapingRequest) (scraped : outcome (scrape_result record))
    (w : world record) :
  creates_job SCRAPERS_AVAILABLE request ->
  keeps elapse (String.substring 0 8 uuid4) ->
  result (scrape_job SCRAPERS_AVAILABLE simulated_valuer_records
            simulated_com_records now_iso now_stamp elapse uuid4 request
            scraped w) = Return tt
  /\ head (progress_values (String.substring 0 8 uuid4)
             (writes (scrape_job SCRAPERS_AVAILABLE simulated_valuer_records
                        simulated_com_records now_iso now_stamp elapse uuid4
                        request scraped w))) = Some 0
  /\ Sorted Z.le
       (progress_values (String.substring 0 8 uuid4)
          (writes (scrape_job SCRAPERS_AVAILABLE simulated_valuer_records
                     simulated_com_records now_iso now_stamp elapse uuid4
                     request scraped w)))
  /\ exists j,
       scraping_jobs
         (after (scrape_job SCRAPERS_AVAILABLE simulated_valuer_records
                   simulated_com_records now_iso now_stamp elapse uuid4
                   request scraped w))
       !! String.substring 0 8 uuid4 = Some j
       /\ (status j = completed \/ status j = failed)
       /\ (progress j = 100 <-> status j = completed)
       /\ last (progress_values (String.substring 0 8 uuid4)
                  (writes (scrape_job SCRAPERS_AVAILABLE
                             simulated_valuer_records simulated_com_records
                             now_iso now_stamp elapse uuid4 request scraped w)))
          = Some (progress j)
       /\ (status j = failed -> progress j < 100).
Proof.
  intros Hcreates Hel. pose proof (proj1 Hcreates) as Hreg.
  destruct (start_scraping_stores SCRAPERS_AVAILABLE now_iso uuid4 request w
              Hcreates)
    as (response & new_job & Hstart & Hid & _ & _ & Hzero).
  set (id := String.substring 0 8 uuid4) in *.
  set (w1 := elapse (World (<[id := new_job]> (scraping_jobs w)) (files w))).
  assert (Hrun :
    scrape_job SCRAPERS_AVAILABLE simulated_valuer_records
      simulated_com_records now_iso now_stamp elapse uuid4 request scraped w
    = prepend [Store id new_job]
        (scheduled_runner SCRAPERS_AVAILABLE simulated_valuer_records
           simulated_com_records now_iso now_stamp elapse request id scraped
           w1)).
  { unfold scrape_job, bind at 1. rewrite Hstart.
    cbn [result after writes]. rewrite bind_wait_return, Hid. reflexivity. }
  rewrite Hrun. clear Hrun.
  destruct (scheduled_runner_finishes request id scraped w1 new_job Hreg Hel)
    as (Hres & Hsorted & j & Hj & Hend & Hiff & Hlast & Hfail);
    [unfold w1; rewrite Hel; apply lookup_insert_eq|].
  unfold prepend. cbn [result after writes app progress_values].
  rewrite String.eqb_refl, Hzero.
  split; [exact Hres|]. split; [reflexivity|]. split; [exact Hsorted|].
  exists j. split; [exact Hj|]. split; [exact Hend|]. split; [exact Hiff|].
  split; [|exact Hfail].
  rewrite last_cons, Hlast. reflexivity.
Qed.

(** C3 (amended): once the job is not in the map, every item assignment on
    its id raises KeyError and changes nothing.  A runner whose job is
    deleted while it waits for the scraper therefore ends with that KeyError
    -- the handlers assign to the same id, so the exception leaves the
    runner -- and the job map stays as the deletion left it: no further state
    is written.  A runner started after the deletion raises at once. *)
Theorem runner_after_delete_raises (request : ScrapingRequest) (id : string)
    (scraped : outcome (scrape_result record)) (w : world record) :
  registered request ->
  removes elapse id ->
  (forall (a : assignment record) (w' : world record),
      scraping_jobs w' !! id = None ->
                setitem id a w' = Run (Raise (KeyError id)) w' [])
  /\ (is_Some (scraping_jobs w !! id) ->
      result (scheduled_runner SCRAPERS_AVAILABLE simulated_valuer_records
                simulated_com_records now_iso now_stamp elapse request id
                scraped w) = Raise (KeyError id)
      /\ scraping_jobs
           (after (scheduled_runner SCRAPERS_AVAILABLE simulated_valuer_records
                     simulated_com_records now_iso now_stamp elapse request id
                     scraped w)) !! id = None
      /\ exists w1,
           scraping_jobs
             (after (scheduled_runner SCRAPERS_AVAILABLE
                       simulated_valuer_records simulated_com_records now_iso
                       now_stamp elapse request id scraped w))
           = scraping_jobs (elapse w1))
  /\ (scraping_jobs w !! id = None ->
      scheduled_runner SCRAPERS_AVAILABLE simulated_valuer_records
        simulated_com_records now_iso now_stamp elapse request id scraped w
      = Run (Raise (KeyError id)) w []).
Proof.
  intros Hreg Hdel. unfold removes in Hdel.
  split; [intros a w' H; apply setitem_missing; exact H|].
  split.
  - intros [j Hw].
    destruct Hreg as [Ht|Ht]; unfold scheduled_runner; rewrite Ht; simpl.
    + unfold run_classic_valuer_background, scrape_classic_valuer_background,
        runner_failed, simulate_classic_valuer_scraper.
      destruct SCRAPERS_AVAILABLE;
        [destruct scraped as [[suc n cf rr err]|e]; [destruct suc|]|];
        exec ltac:(lookup_gone Hdel); finish_gone Hdel.
    + unfold run_classic_com_background, scrape_classic_com_background,
        runner_failed.
      destruct SCRAPERS_AVAILABLE;
        [destruct scraped as [[suc n cf rr err]|e]; [destruct suc|]|];
        exec ltac:(lookup_gone Hdel); finish_gone Hdel.
  - intros Hw.
    destruct Hreg as [Ht|Ht]; unfold scheduled_runner; rewrite Ht; simpl.
    + unfold run_classic_valuer_background, runner_failed.
      exec ltac:(lookup_gone Hdel). reflexivity.
    + unfold run_classic_com_background, runner_failed.
      exec ltac:(lookup_gone Hdel). reflexivity.
Qed.

End RunnerProgress.

Lemma job_progress_never_decreases_witness :
  result (scrape_job true [] [] "2024-07-01T12:05:00" "20240701_120000"
            (fun w => w) "1a2b3c4d-0000-4000-8000-000000000000"
            classic_com_request (Return one_row_result) no_jobs) = Return tt.
Proof.
  refine (proj1 (job_progress_never_decreases true [] [] "2024-07-01T12:05:00"
                   "20240701_120000" (fun w => w)
                   "1a2b3c4d-0000-4000-8000-000000000000"
                   classic_com_request (Return one_row_result) no_jobs _ _)).
  - split; [right; reflexivity | discriminate].
  - intros w'. reflexivity.
Defined.

Lemma runner_after_delete_raises_witness :
  result (scheduled_runner true [] [] "2024-07-01T12:05:00" "20240701_120000"
            (deleted_meanwhile "1a2b3c4d") classic_com_request "1a2b3c4d"
            (Return one_row_result) world_with_pending_job)
  = Raise (KeyError "1a2b3c4d").
Proof.
  refine (proj1 (proj1 (proj2 (runner_after_delete_raises true [] []
                   "2024-07-01T12:05:00" "20240701_120000"
                   (deleted_meanwhile "1a2b3c4d") classic_com_request
                   "1a2b3c4d" (Return one_row_result) world_with_pending_job
                   _ _)) _)).
  - right. reflexivity.
  - intros w'. unfold deleted_meanwhile, delete_job.
    destruct (scraping_jobs w' !! "1a2b3c4d") as [j|] eqn:H; simpl.
    + apply lookup_delete_eq.
    + exact H.
  - eexists. vm_compute. reflexivity.
Defined.

(** The runner does raise: the job is deleted by a request served while the
    Classic.com runner waits for its scraper; the scraper succeeds, the
    runner's next assignment raises KeyError, so do the assignments of the
    two handlers, and the runner ends with that exception instead of
    returning. *)
Lemma runner_after_delete_counterexample :
  result (run_classic_com_background true [] "2024-07-01T12:05:00"
            "20240701_120000" (deleted_meanwhile "1a2b3c4d") "1a2b3c4d"
            (Return one_row_result) world_with_pending_job)
  = Raise (KeyError "1a2b3c4d")
  /\ result (run_classic_com_background true [] "2024-07-01T12:05:00"
               "20240701_120000" (deleted_meanwhile "1a2b3c4d") "1a2b3c4d"
               (Return one_row_result) world_with_pending_job)
     <> Return tt
  /\ setitem "1a2b3c4d" (set_progress 80)
       (deleted_meanwhile "1a2b3c4d" world_with_pending_job)
     = Run (Raise (KeyError "1a2b3c4d"))
           (deleted_meanwhile "1a2b3c4d" world_with_pending_job) [].
Proof.
  split; [vm_compute; reflexivity|].
  split; [vm_compute; discriminate|].
  apply setitem_missing. vm_compute. reflexivity.
Qed.

(** ** Results of a job *)

Section Results.

Context {record : Type}.

(** The answers of [get_job_results] for a known job: "Job not completed"
    (status code 400) unless the job is completed; for a completed job the
    rows of the job's CSV file when the job names one and the file is there
    and readable; the results stored in the job when it names no file or the
    file is gone; an error text when the file cannot be read.  The world is
    left as it was. *)
Lemma get_job_results_by_status (id : string) (w : world record)
    (j : job record) :
  scraping_jobs w !! id = Some j ->
  (status j <> completed ->
   get_job_results id w
   = Run (Raise (HTTPException 400 "Job not completed")) w [])
  /\ (status j = completed ->
      (forall name records,
         named_file j = Some name -> files w !! name = Some (Csv records) ->
         get_job_results id w
         = Run (Return (CsvData id (Z.of_nat (length records)) records)) w [])
      /\ (named_file j = None
          \/ (exists name, named_file j = Some name /\ files w !! name = None) ->
          get_job_results id w
          = Run (Return (StoredResults id (results j))) w [])
      /\ (forall name why,
            named_file j = Some name -> files w !! name = Some (Garbled why) ->
            get_job_results id w
            = Run (Return (ReadError ("Failed to read CSV: " +:+ exn_str why)))
                  w [])).
Proof.
  intros Hj. unfold get_job_results. rewrite Hj. split.
  - intros Hst. destruct (status j); try reflexivity. congruence.
  - intros ->. split; [|split].
    + intros name records -> ->. reflexivity.
    + intros [-> | (name & -> & ->)]; reflexivity.
    + intros name why -> ->. reflexivity.
Qed.

End Results.

Lemma get_job_results_pending_job :
  get_job_results "1a2b3c4d" world_with_pending_job
  = Run (Raise (HTTPException 400 "Job not completed")) world_with_pending_job [].
Proof.
  refine (proj1 (get_job_results_by_status "1a2b3c4d" world_with_pending_job
                   (pending_job "1a2b3c4d") _) _).
  - vm_compute. reflexivity.
  - discriminate.
Qed.

(** C9 (the code departs from it): a completed job does not always get
    its full record set.  Two Classic Valuer jobs of twelve records each
    write the one file [classic_valuer_improved.csv]; deleting the first job
    unlinks that file; the second job is still completed with
    [total_records = 12], and [get_job_results] answers with the ten records
    stored in the job, where its docstring promises the full results.  A job
    that is not completed gets "Job not completed", as the claim says. *)
Theorem get_job_results_preview_only :
  (exists j rows,
     scraping_jobs after_first_job_deleted !! "bbbbbbbb" = Some j
     /\ status j = completed
     /\ total_records j = 12
     /\ csv_file j = Some "classic_valuer_improved.csv"
     /\ files after_first_job_deleted !! "classic_valuer_improved.csv" = None
     /\ result (get_job_results "bbbbbbbb" after_first_job_deleted)
        = Return (StoredResults "bbbbbbbb" rows)
     /\ length rows = 10%nat)
  /\ result (get_job_results "bbbbbbbb" after_second_valuer_job)
     = Return (CsvData "bbbbbbbb" 12 twelve_rows)
  /\ result (get_job_results "1a2b3c4d" world_with_pending_job)
     = Raise (HTTPException 400 "Job not completed").
Proof.
  split; [|split; vm_compute; reflexivity].
  eexists _, _. split; [vm_compute; reflexivity|].
  split; [reflexivity|]. split; [reflexivity|]. split; [reflexivity|].
  split; [vm_compute; reflexivity|].
  split; [vm_compute; reflexivity|]. reflexivity.
Qed.

(** ** Substrings *)



(** *** Letter case *)








(** ** The listing parser *)

Section ParseProperties.

Variable extract_auction_date : string -> string.
Variable extract_production_year : string -> string.
Variable extract_make_model_improved : string -> string * string.
Variable extract_is_spyder : string -> bool.
Variable extract_country_improved : string -> string.
Variable extract_auction_house_improved : string -> string.
Variable clean_description_text : string -> string.

Local Abbreviation parse :=
  (parse_listing_text extract_auction_date extract_production_year
     extract_make_model_improved extract_is_spyder extract_country_improved
     extract_auction_house_improved clean_description_text).


End ParseProperties.

Section ProcessProperties.

Variable extract_auction_date : string -> string.
Variable extract_production_year : string -> string.
Variable extract_make_model_improved : string -> string * string.
Variable extract_is_spyder : string -> bool.
Variable extract_country_improved : string -> string.
Variable extract_auction_house_improved : string -> string.
Variable clean_description_text : string -> string.
Variable hash : string -> Z.

Local Abbreviation parse :=
  (parse_listing_text extract_auction_date extract_production_year
     extract_make_model_improved extract_is_spyder extract_country_improved
     extract_auction_house_improved clean_description_text).
Local Abbreviation collect :=
  (collect_valid extract_auction_date extract_production_year
     extract_make_model_improved extract_is_spyder extract_country_improved
     extract_auction_house_improved clean_description_text hash).
Local Abbreviation process :=
  (process_vehicle_listings extract_auction_date extract_production_year
     extract_make_model_improved extract_is_spyder extract_country_improved
     extract_auction_house_improved clean_description_text hash).





(** C7 (the code departs from it): on a range whose bounds carry pence the
    range pattern matches, pence included, and [int] then raises ValueError
    on the first bound: the parse fails and the listing is dropped, where
    the claim has the price 1,500.  On a range of whole amounts the price is
    the midpoint rounded down. *)
Theorem price_range_with_pence_raises :
  extract_price listing_with_pence_range = Raise (ValueError "1000.50")
  /\ parse listing_with_pence_range 0 = Raise (ValueError "1000.50")
  /\ process [RawListing (Some 0) (Some listing_with_pence_range)] = []
  /\ extract_price listing_with_whole_range = Return "Â£12,500".
Proof.
  assert (H : extract_price listing_with_pence_range
              = Raise (ValueError "1000.50")) by (vm_compute; reflexivity).
  split; [exact H|].
  assert (Hparse : parse listing_with_pence_range 0
                   = Raise (ValueError "1000.50")).
  { unfold parse_listing_text. rewrite H. reflexivity. }
  split; [exact Hparse|]. split; [|vm_compute; reflexivity].
  unfold process_vehicle_listings. cbn [collect_valid].
  change (strip (default "" (raw_text (RawListing (Some 0)
            (Some listing_with_pence_range))))) with listing_with_pence_range.
  change (default 0 (raw_index (RawListing (Some 0)
            (Some listing_with_pence_range)))) with 0.
  cbn [negb truthy listing_with_pence_range orb].
  replace (py_len listing_with_pence_range <? 30)%nat with false
    by (vm_compute; reflexivity).
  destruct (decide (hash (py_take 100 listing_with_pence_range) ∈ ∅))
    as [Hin|_]; [set_solver|].
  rewrite Hparse. reflexivity.
Qed.

End ProcessProperties.



(** ** Endpoints of the job map *)

Section Endpoints.

Context {record : Type}.

(** X1: [delete_job] on a known id answers "Job deleted", removes the job
    -- [get_job_status] then fails with 404 -- and unlinks the CSV file the
    job names; the other jobs and the other files stay. *)
Theorem delete_job_then_not_found (id : string) (w : world record)
    (j : job record) :
  scraping_jobs w !! id = Some j ->
  result (delete_job id w) = Return "Job deleted"
  /\ get_job_status id (after (delete_job id w))
     = Run (Raise (HTTPException 404 "Job not found")) (after (delete_job id w)) []
  /\ (forall other, other <> id ->
        scraping_jobs (after (delete_job id w)) !! other
        = scraping_jobs w !! other)
  /\ (forall name, named_file j = Some name ->
        files (after (delete_job id w)) !! name = None)
  /\ (forall name, named_file j <> Some name ->
        files (after (delete_job id w)) !! name = files w !! name).
Proof.
  intros Hj. unfold delete_job, get_job_status. rewrite Hj.
  cbn [result after scraping_jobs files].
  split; [reflexivity|]. split.
  - rewrite lookup_delete_eq. reflexivity.
  - split; [|split].
    + intros other Hne. apply lookup_delete_ne. congruence.
    + intros name ->. apply lookup_delete_eq.
    + intros name Hname. destruct (named_file j) as [name'|]; [|reflexivity].
      apply lookup_delete_ne. congruence.
Qed.

(** X2: on an id that is not in the map, [get_job_status],
    [get_job_results] and [delete_job] all fail with 404 "Job not found" and
    change nothing, files included. *)
Theorem unknown_job_not_found (id : string) (w : world record) :
  scraping_jobs w !! id = None ->
  get_job_status id w = Run (Raise (HTTPException 404 "Job not found")) w []
  /\ get_job_results id w = Run (Raise (HTTPException 404 "Job not found")) w []
  /\ delete_job id w = Run (Raise (HTTPException 404 "Job not found")) w [].
Proof.
  intros H. unfold get_job_status, get_job_results, delete_job. rewrite H.
  repeat split.
Qed.

Variable SCRAPERS_AVAILABLE : bool.
Variable now_iso : string.

(** X3: a request for a source other than [classic_valuer] and
    [classic_com] is refused with status code 400 before anything is stored:
    the job map and the files are unchanged. *)
Theorem start_scraping_invalid_source (uuid4 : string)
    (request : ScrapingRequest) (w : world record) :
  ~ registered request ->
  start_scraping SCRAPERS_AVAILABLE now_iso uuid4 request w
  = Run (Raise (HTTPException 400
                  "Invalid scraper type. Use 'classic_valuer' or 'classic_com'"))
        w [].
Proof.
  intros Hreg. unfold registered in Hreg. unfold start_scraping. cbv zeta.
  destruct (String.eqb_spec (req_scraper_type request) "classic_valuer") as [H|_];
    [tauto|].
  destruct (String.eqb_spec (req_scraper_type request) "classic_com") as [H|_];
    [tauto|].
  rewrite bind_raise. reflexivity.
Qed.

(** X4: the job a request creates can be read back: [get_job_status] on the
    id [start_scraping] answers with returns a pending job with progress 0,
    no records, no file and no completion time, started at the time of the
    request.  Its options are the request's with the defaults of the source
    filled in for the keys the request leaves out (the request wins on a
    common key); without the real scrapers they are the request's alone. *)
Theorem start_scraping_then_status (uuid4 : string)
    (request : ScrapingRequest) (w : world record) :
  creates_job SCRAPERS_AVAILABLE request ->
  exists response j,
    result (start_scraping SCRAPERS_AVAILABLE now_iso uuid4 request w)
    = Return response
    /\ result (get_job_status (resp_job_id response)
                 (after (start_scraping SCRAPERS_AVAILABLE now_iso uuid4
                           request w))) = Return j
    /\ job_id j = resp_job_id response
    /\ status j = pending /\ progress j = 0 /\ total_records j = 0
    /\ results j = [] /\ csv_file j = None /\ completed_at j = None
    /\ started_at j = now_iso
    /\ scraper_type j = req_scraper_type request
    /\ resp_options response = options j
    /\ (SCRAPERS_AVAILABLE = false -> options j = req_options request)
    /\ (SCRAPERS_AVAILABLE = true ->
        exists requested merged,
          req_options request = Some requested
          /\ options j = Some merged
          /\ forall key,
               merged !! key
               = match requested !! key with
                 | Some v => Some v
                 | None =>
                   if String.eqb (req_scraper_type request) "classic_valuer"
                   then CLASSIC_VALUER_DEFAULT_OPTIONS !! key
                   else CLASSIC_COM_DEFAULT_OPTIONS !! key
                 end).
Proof.
  intros [Hreg Hoptions].
  unfold start_scraping, merged_options, get_job_status. cbv zeta.
  assert (Hsome : SCRAPERS_AVAILABLE = true ->
                  exists requested, req_options request = Some requested).
  { intros Hreal. destruct (req_options request) as [requested|];
      [eauto | exfalso; exact (Hoptions Hreal eq_refl)]. }
  destruct Hreg as [Ht|Ht]; rewrite Ht; cbn [String.eqb Ascii.eqb Bool.eqb];
    (destruct SCRAPERS_AVAILABLE;
       [destruct (Hsome eq_refl) as (requested & ->)|]);
    eexists _, _;
    rewrite !bind_ret, !bind_store; unfold prepend, ret;
    cbn [result after writes scraping_jobs files];
    (split; [reflexivity|]);
    cbn [resp_job_id]; rewrite lookup_insert_eq; cbn [result];
    (split; [reflexivity|]);
    cbn [job_id status progress total_records results csv_file completed_at
         started_at scraper_type options resp_options];
    repeat (split; [reflexivity|]);
    try (split; [intros H; discriminate H|]);
    intros H; try discriminate H;
    eexists _, _; (split; [reflexivity|]); (split; [reflexivity|]);
    intros key; rewrite lookup_union;
    destruct (requested !! key);
    destruct (_ !! key); reflexivity.
Qed.

End Endpoints.

Lemma delete_job_then_not_found_witness :
  result (delete_job "1a2b3c4d" world_with_two_jobs) = Return "Job deleted".
Proof.
  refine (proj1 (delete_job_then_not_found "1a2b3c4d" world_with_two_jobs
                   (finished_job "1a2b3c4d" [ferrari_100k] 1
                      (Some "classic_com_20240701_120000.csv")) _)).
  vm_compute. reflexivity.
Defined.

Lemma unknown_job_not_found_witness :
  get_job_status "00000000" world_with_two_jobs
  = Run (Raise (HTTPException 404 "Job not found")) world_with_two_jobs [].
Proof.
  refine (proj1 (unknown_job_not_found "00000000" world_with_two_jobs _)).
  vm_compute. reflexivity.
Defined.

Lemma start_scraping_invalid_source_witness :
  start_scraping true "2024-07-02T09:00:00" "1a2b3c4d-0000-4000-8000-000000000000"
    unknown_source_request world_with_two_jobs
  = Run (Raise (HTTPException 400
                  "Invalid scraper type. Use 'classic_valuer' or 'classic_com'"))
        world_with_two_jobs [].
Proof.
  apply (start_scraping_invalid_source (record := row)).
  intros [H|H]; discriminate H.
Defined.

Lemma start_scraping_then_status_witness :
  exists response j,
    result (start_scraping true "2024-07-02T09:00:00"
              "9c0d1e2f-0000-4000-8000-000000000000" request_with_overrides
              world_with_two_jobs) = Return response
    /\ result (get_job_status (resp_job_id response)
                 (after (start_scraping true "2024-07-02T09:00:00"
                           "9c0d1e2f-0000-4000-8000-000000000000"
                           request_with_overrides world_with_two_jobs)))
       = Return j
    /\ status j = pending.
Proof.
  destruct (start_scraping_then_status (record := row) true
              "2024-07-02T09:00:00" "9c0d1e2f-0000-4000-8000-000000000000"
              request_with_overrides world_with_two_jobs)
    as (response & j & H1 & H2 & _ & H3 & _).
  - split; [right; reflexivity | discriminate].
  - exists response, j. split; [exact H1|]. split; [exact H2 | exact H3].
Defined.

(** ** Runners and the other jobs *)

Section Isolation.

Context {record : Type}.

Implicit Types (w : world record).

Lemma leaves_alone_ret {A : Type} other (x : A) :
  leaves_alone (record := record) other (ret x).
Proof. intros w. reflexivity. Qed.

Lemma leaves_alone_raise {A : Type} other (e : exn) :
  leaves_alone (record := record) (A := A) other (raise e).
Proof. intros w. reflexivity. Qed.

Lemma leaves_alone_setitem other id (a : assignment record) :
  other <> id -> leaves_alone other (setitem id a).
Proof.
  intros Hne w. unfold setitem.
  destruct (scraping_jobs w !! id); cbn [after scraping_jobs]; [|reflexivity].
  apply lookup_insert_ne. congruence.
Qed.

Lemma leaves_alone_wait {A : Type} other (elapse : world record -> world record)
    (x : outcome A) :
  keeps elapse other -> leaves_alone other (wait_for elapse x).
Proof. intros Hk w. apply Hk. Qed.

Lemma leaves_alone_bind {A B : Type} other (c : task record A)
    (k : A -> task record B) :
  leaves_alone other c -> (forall x, leaves_alone other (k x)) ->
  leaves_alone other (bind c k).
Proof.
  intros Hc Hk w. unfold bind. specialize (Hc w).
  destruct (c w) as [[x|e] w1 ws1]; cbn [result after] in *; [|exact Hc].
  rewrite (Hk x w1). exact Hc.
Qed.

Lemma leaves_alone_try_except {A : Type} other (body : task record A)
    (handler : exn -> task record A) :
  leaves_alone other body -> (forall e, leaves_alone other (handler e)) ->
  leaves_alone other (try_except body handler).
Proof.
  intros Hb Hh w. unfold try_except. specialize (Hb w).
  destruct (body w) as [[x|e] w1 ws1]; cbn [result after] in *; [exact Hb|].
  rewrite (Hh e w1). exact Hb.
Qed.

Lemma leaves_alone_simulate_com other (records : list record)
    (now_stamp : string) (elapse : world record -> world record) :
  keeps elapse other ->
  leaves_alone other (simulate_classic_com_scraper records now_stamp elapse).
Proof. intros Hk w. apply Hk. Qed.

Lemma leaves_alone_results_item other (r : scrape_result record) :
  leaves_alone (record := record) other (results_item r).
Proof.
  unfold results_item. destruct (res_results r);
    [apply leaves_alone_ret | apply leaves_alone_raise].
Qed.

End Isolation.

Ltac alone :=
  repeat first
    [ match goal with |- forall _, _ => intro end
    | apply leaves_alone_bind
    | apply leaves_alone_try_except
    | apply leaves_alone_setitem; assumption
    | apply leaves_alone_wait; assumption
    | apply leaves_alone_simulate_com; assumption
    | apply leaves_alone_results_item
    | apply leaves_alone_ret
    | apply leaves_alone_raise
    | match goal with
      | |- leaves_alone _ (if ?b then _ else _) => destruct b
      end ].

Section RunnerSummaries.

Context {record : Type}.
Variable SCRAPERS_AVAILABLE : bool.
Variables simulated_valuer_records simulated_com_records : list record.
Variables now_iso now_stamp : string.
Variable elapse : world record -> world record.

(** X5: a runner writes to its own job only.  Whatever the scraper gives
    back, and whether its own job is still in the map or not, the entry of
    any other job after the run is the entry before it, provided nothing
    else touches that entry while the runner waits. *)
Theorem runner_leaves_other_jobs_alone (request : ScrapingRequest)
    (id other : string) (scraped : outcome (scrape_result record))
    (w : world record) :
  other <> id ->
  keeps elapse other ->
  scraping_jobs
    (after (scheduled_runner SCRAPERS_AVAILABLE simulated_valuer_records
              simulated_com_records now_iso now_stamp elapse request id
              scraped w)) !! other
  = scraping_jobs w !! other.
Proof.
  intros Hne Hk. revert w.
  change (leaves_alone other
            (scheduled_runner SCRAPERS_AVAILABLE simulated_valuer_records
               simulated_com_records now_iso now_stamp elapse request id
               scraped)).
  unfold scheduled_runner, run_classic_valuer_background,
    run_classic_com_background, scrape_classic_valuer_background,
    scrape_classic_com_background, runner_failed,
    simulate_classic_valuer_scraper.
  alone.
Qed.

(** X6: a run with the real scrapers that succeeds leaves the job
    completed with progress 100, the scraper's record count and file name,
    and the first ten of the scraper's records as results -- never more than
    ten; the completion time is set, and the id, the start time, the source
    and the options of the job are what they were. *)
Theorem real_run_success_summary (request : ScrapingRequest) (id : string)
    (res : scrape_result record) (l : list record) (w : world record)
    (j : job record) :
  registered request ->
  keeps elapse id ->
  scraping_jobs w !! id = Some j ->
  success res = true ->
  res_results res = Some l ->
  exists j',
    scraping_jobs
      (after (scheduled_runner true simulated_valuer_records
                simulated_com_records now_iso now_stamp elapse request id
                (Return res) w)) !! id = Some j'
    /\ status j' = completed /\ progress j' = 100
    /\ total_records j' = records_found res
    /\ results j' = first_items 10 l
    /\ (length (results j') <= 10)%nat
    /\ csv_file j' = res_csv_file res
    /\ completed_at j' = Some now_iso
    /\ job_id j' = job_id j /\ started_at j' = started_at j
    /\ scraper_type j' = scraper_type j /\ options j' = options j.
Proof.
  intros Hreg Hel Hw Hsuc Hres. unfold keeps in Hel.
  destruct res as [suc n cf rr err]. cbn in Hsuc, Hres. subst suc rr.
  destruct j as [ji jst jm jp jt jr jc js je jty jo].
  destruct Hreg as [Ht|Ht]; unfold scheduled_runner; rewrite Ht;
    cbn [String.eqb Ascii.eqb Bool.eqb];
    unfold run_classic_valuer_background, run_classic_com_background,
      scrape_classic_valuer_background, scrape_classic_com_background,
      runner_failed;
    exec ltac:(lookup_kept Hel);
    (eexists; split; [apply lookup_insert_eq|]);
    cbn [assign status progress total_records results csv_file completed_at
         job_id started_at scraper_type options];
    repeat (split; [reflexivity|]);
    (split; [|repeat split]);
    unfold first_items; rewrite length_take; lia.
Qed.

(** X7: when the real scraper reports a failure, the job ends failed with
    the scraper's error text in its message ("Unknown error" when there is
    none), at the progress of the processing step (75 for the Classic
    Valuer, 80 for Classic.com); the record count, the results and the file
    of the job are not touched, and the completion time is set. *)
Theorem real_run_reported_failure (request : ScrapingRequest) (id : string)
    (res : scrape_result record) (w : world record) (j : job record) :
  registered request ->
  keeps elapse id ->
  scraping_jobs w !! id = Some j ->
  success res = false ->
  exists j',
    scraping_jobs
      (after (scheduled_runner true simulated_valuer_records
                simulated_com_records now_iso now_stamp elapse request id
                (Return res) w)) !! id = Some j'
    /\ status j' = failed
    /\ message j'
       = (if String.eqb (req_scraper_type request) "classic_valuer"
          then "Classic Valuer scraping failed: "
          else "Classic.com scraping failed: ") +:+ error_text res
    /\ progress j'
       = (if String.eqb (req_scraper_type request) "classic_valuer"
          then 75 else 80)
    /\ total_records j' = total_records j
    /\ results j' = results j
    /\ csv_file j' = csv_file j
    /\ completed_at j' = Some now_iso.
Proof.
  intros Hreg Hel Hw Hsuc. unfold keeps in Hel.
  destruct res as [suc n cf rr err]. cbn in Hsuc. subst suc.
  destruct j as [ji jst jm jp jt jr jc js je jty jo].
  destruct Hreg as [Ht|Ht]; unfold scheduled_runner; rewrite Ht;
    cbn [String.eqb Ascii.eqb Bool.eqb];
    unfold run_classic_valuer_background, run_classic_com_background,
      scrape_classic_valuer_background, scrape_classic_com_background,
      runner_failed;
    exec ltac:(lookup_kept Hel);
    (eexists; split; [apply lookup_insert_eq|]);
    cbn [assign status progress total_records results csv_file completed_at
         message];
    repeat split.
Qed.

(** X8: when the real scraper raises, the handler of the runner records
    it: the job ends failed with the text of the exception in its message,
    at the progress written before the call (25 for the Classic Valuer, 30
    for Classic.com), and the completion time is set. *)
Theorem real_run_raised_failure (request : ScrapingRequest) (id : string)
    (e : exn) (w : world record) (j : job record) :
  registered request ->
  keeps elapse id ->
  scraping_jobs w !! id = Some j ->
  exists j',
    scraping_jobs
      (after (scheduled_runner true simulated_valuer_records
                simulated_com_records now_iso now_stamp elapse request id
                (Raise e) w)) !! id = Some j'
    /\ status j' = failed
    /\ message j'
       = (if String.eqb (req_scraper_type request) "classic_valuer"
          then "Error in Classic Valuer scraper: "
          else "Error in Classic.com scraper: ") +:+ exn_str e
    /\ progress j'
       = (if String.eqb (req_scraper_type request) "classic_valuer"
          then 25 else 30)
    /\ completed_at j' = Some now_iso.
Proof.
  intros Hreg Hel Hw. unfold keeps in Hel.
  destruct j as [ji jst jm jp jt jr jc js je jty jo].
  destruct Hreg as [Ht|Ht]; unfold scheduled_runner; rewrite Ht;
    cbn [String.eqb Ascii.eqb Bool.eqb];
    unfold run_classic_valuer_background, run_classic_com_background,
      scrape_classic_valuer_background, scrape_classic_com_background,
      runner_failed;
    exec ltac:(lookup_kept Hel);
    (eexists; split; [apply lookup_insert_eq|]);
    cbn [assign status progress completed_at message];
    repeat split.
Qed.

End RunnerSummaries.

Lemma runner_leaves_other_jobs_alone_witness :
  scraping_jobs
    (after (scheduled_runner true [] [] "2024-07-01T12:05:00" "20240701_120000"
              nothing_else_happens classic_com_request "5e6f7a8b"
              (Return one_row_result) world_with_two_jobs)) !! "1a2b3c4d"
  = scraping_jobs world_with_two_jobs !! "1a2b3c4d".
Proof.
  apply (runner_leaves_other_jobs_alone true [] [] "2024-07-01T12:05:00"
           "20240701_120000" nothing_else_happens classic_com_request
           "5e6f7a8b" "1a2b3c4d" (Return one_row_result) world_with_two_jobs).
  - discriminate.
  - intros w. reflexivity.
Defined.

Lemma real_run_success_summary_witness :
  exists j',
    scraping_jobs
      (after (scheduled_runner true [] [] "2024-07-01T12:05:00"
                "20240701_120000" nothing_else_happens classic_com_request
                "1a2b3c4d" (Return one_row_result) world_with_pending_job))
    !! "1a2b3c4d" = Some j'
    /\ status j' = completed /\ progress j' = 100.
Proof.
  destruct (real_run_success_summary [] [] "2024-07-01T12:05:00"
              "20240701_120000" nothing_else_happens classic_com_request
              "1a2b3c4d" one_row_result [ferrari_100k] world_with_pending_job
              (pending_job "1a2b3c4d"))
    as (j' & H1 & H2 & H3 & _).
  - right. reflexivity.
  - intros w. reflexivity.
  - vm_compute. reflexivity.
  - reflexivity.
  - reflexivity.
  - exists j'. split; [exact H1|]. split; [exact H2 | exact H3].
Defined.

Lemma real_run_reported_failure_witness :
  exists j',
    scraping_jobs
      (after (scheduled_runner true [] [] "2024-07-01T12:05:00"
                "20240701_120000" nothing_else_happens classic_valuer_request
                "1a2b3c4d" (Return failed_result) world_with_pending_job))
    !! "1a2b3c4d" = Some j'
    /\ status j' = failed.
Proof.
  destruct (real_run_reported_failure [] [] "2024-07-01T12:05:00"
              "20240701_120000" nothing_else_happens classic_valuer_request
              "1a2b3c4d" failed_result world_with_pending_job
              (pending_job "1a2b3c4d"))
    as (j' & H1 & H2 & _).
  - left. reflexivity.
  - intros w. reflexivity.
  - vm_compute. reflexivity.
  - reflexivity.
  - exists j'. split; [exact H1 | exact H2].
Defined.

Lemma real_run_raised_failure_witness :
  exists j',
    scraping_jobs
      (after (scheduled_runner true [] [] "2024-07-01T12:05:00"
                "20240701_120000" nothing_else_happens classic_com_request
                "1a2b3c4d" (Raise (Exception "browser closed"))
                world_with_pending_job))
    !! "1a2b3c4d" = Some j'
    /\ status j' = failed.
Proof.
  destruct (real_run_raised_failure [] [] "2024-07-01T12:05:00"
              "20240701_120000" nothing_else_happens classic_com_request
              "1a2b3c4d" (Exception "browser closed") world_with_pending_job
              (pending_job "1a2b3c4d"))
    as (j' & H1 & H2 & _).
  - right. reflexivity.
  - intros w. reflexivity.
  - vm_compute. reflexivity.
  - exists j'. split; [exact H1 | exact H2].
Defined.

(** ** More on the duplicate test and the Classic.com pipeline *)

Lemma is_duplicate_from_app (candidate : row) (new_price : Z)
    (h1 h2 : list row) :
  is_duplicate_from candidate new_price (h1 ++ h2)
  = match is_duplicate_from candidate new_price h1 with
    | Return false => is_duplicate_from candidate new_price h2
    | other => other
    end.
Proof.
  induction h1 as [|e h1 IH]; cbn [app is_duplicate_from]; [reflexivity|].
  destruct (normalize_price (Sold_Price e)) as [p|err]; [|reflexivity].
  destruct (String.eqb (Make candidate) (Make e)
            && String.eqb (Model candidate) (Model e)
            && String.eqb (Date_of_Sale candidate) (Date_of_Sale e));
    [|exact IH].
  destruct (true_div (Z.abs (p - new_price)) new_price) as [q|err];
    [|reflexivity].
  destruct (le_0_05 q); [reflexivity | exact IH].
Qed.

(** X9: the history is scanned from the front and the scan stops at the
    first verdict: on a history [h1 ++ h2] the answer is the answer on [h1]
    when that is [True] or an exception -- nothing in [h2] is looked at, not
    even a price that would not parse -- and the answer on [h2] when [h1]
    gives [False]. *)
Theorem is_duplicate_scans_front_first (candidate : row) (h1 h2 : list row) :
  is_duplicate candidate (h1 ++ h2)
  = match is_duplicate candidate h1 with
    | Return false => is_duplicate candidate h2
    | other => other
    end.
Proof.
  unfold is_duplicate.
  destruct (normalize_price (Sold_Price candidate)) as [np|err]; [|reflexivity].
  apply is_duplicate_from_app.
Qed.

Lemma is_duplicate_empty_history (candidate : row) :
  is_duplicate candidate []
  = if truthy (keep_digits (Sold_Price candidate)) then Return false
    else Raise (ValueError "").
Proof.
  unfold is_duplicate.
  destruct (keep_digits (Sold_Price candidate)) as [|c s] eqn:Hk.
  - rewrite (normalize_price_no_digit _ Hk). reflexivity.
  - destruct (normalize_price_some_digit (Sold_Price candidate)) as (p & Hp & _);
      [congruence|].
    rewrite Hp. reflexivity.
Qed.

Lemma accepted_rows_empty_history (listing_data : list (option row)) :
  accepted_rows [] listing_data = priced_rows listing_data.
Proof.
  unfold accepted_rows, priced_rows. apply flat_map_ext.
  intros [row|]; [|reflexivity].
  rewrite is_duplicate_empty_history.
  destruct (truthy (keep_digits (Sold_Price row))); reflexivity.
Qed.

Lemma run_classic_com_shape (now : string) (disk : gmap string (file row))
    (listing_data : list (option row)) :
  (forall why, disk !! output_csv now <> Some (Garbled why)) ->
  run_classic_com_scraper_real now disk (Return listing_data)
  = match accepted_rows (loaded_history now disk) listing_data with
    | [] => (ScrapeResult true 0 None (Some []) None, disk)
    | accepted =>
      (ScrapeResult true (Z.of_nat (length accepted)) (Some (output_csv now))
         (Some accepted) None,
       <[output_csv now := Csv accepted]> disk)
    end.
Proof.
  intros Hok. unfold run_classic_com_scraper_real, loaded_history, output_csv in *.
  destruct (disk !! ("classic_com_" +:+ now +:+ ".csv")) as [[records|why]|] eqn:Hf.
  - rewrite scrape_listings_accepted. cbn [app].
    destruct (accepted_rows records listing_data); reflexivity.
  - exfalso. exact (Hok why eq_refl).
  - rewrite scrape_listings_accepted. cbn [app].
    destruct (accepted_rows [] listing_data); reflexivity.
Qed.

(** X10: a run of the Classic.com pipeline whose browser session goes
    through reports success with the accepted rows and their count.  When
    no row is accepted it names no file and writes none.  When some are, it
    names the output file and that file then holds the accepted rows and
    nothing else: rows that were in it before the run are not kept.  No
    other file changes. *)
Theorem classic_com_output (now : string) (disk : gmap string (file row))
    (listing_data : list (option row)) :
  (forall why, disk !! output_csv now <> Some (Garbled why)) ->
  success (fst (run_classic_com_scraper_real now disk (Return listing_data)))
  = true
  /\ res_results (fst (run_classic_com_scraper_real now disk (Return listing_data)))
     = Some (accepted_rows (loaded_history now disk) listing_data)
  /\ records_found (fst (run_classic_com_scraper_real now disk (Return listing_data)))
     = Z.of_nat (length (accepted_rows (loaded_history now disk) listing_data))
  /\ (accepted_rows (loaded_history now disk) listing_data = [] ->
      res_csv_file (fst (run_classic_com_scraper_real now disk (Return listing_data)))
      = None
      /\ snd (run_classic_com_scraper_real now disk (Return listing_data)) = disk)
  /\ (accepted_rows (loaded_history now disk) listing_data <> [] ->
      res_csv_file (fst (run_classic_com_scraper_real now disk (Return listing_data)))
      = Some (output_csv now)
      /\ snd (run_classic_com_scraper_real now disk (Return listing_data))
         !! output_csv now
         = Some (Csv (accepted_rows (loaded_history now disk) listing_data))
      /\ forall name, name <> output_csv now ->
           snd (run_classic_com_scraper_real now disk (Return listing_data))
           !! name = disk !! name).
Proof.
  intros Hok. rewrite (run_classic_com_shape now disk listing_data Hok).
  destruct (accepted_rows (loaded_history now disk) listing_data) as [|r l];
    cbn [fst snd success res_results records_found res_csv_file length].
  - split; [reflexivity|]. split; [reflexivity|]. split; [reflexivity|].
    split; [intros _; split; reflexivity | congruence].
  - split; [reflexivity|]. split; [reflexivity|]. split; [reflexivity|].
    split; [discriminate|]. intros _.
    split; [reflexivity|]. split; [apply lookup_insert_eq|].
    intros name Hne. apply lookup_insert_ne. congruence.
Qed.

(** X11: a run that cannot start or finish its browser session, or that
    finds an output file it cannot read, reports failure with the text of the
    exception, zero records and an empty result list, and leaves every file
    as it was. *)
Theorem classic_com_failure (now : string) (disk : gmap string (file row))
    (browse : outcome (list (option row))) (e : exn) :
  disk !! output_csv now = Some (Garbled e)
  \/ ((forall why, disk !! output_csv now <> Some (Garbled why))
      /\ browse = Raise e) ->
  run_classic_com_scraper_real now disk browse
  = (ScrapeResult false 0 None (Some []) (Some (exn_str e)), disk).
Proof.
  unfold run_classic_com_scraper_real, output_csv.
  intros [Hg | (Hok & ->)].
  - rewrite Hg. reflexivity.
  - destruct (disk !! ("classic_com_" +:+ now +:+ ".csv")) as [[records|why]|] eqn:Hf;
      try reflexivity.
    exfalso. exact (Hok why eq_refl).
Qed.

(** X12: when the output file of the run does not exist yet -- the usual
    case, the name carrying the time of the run to the second -- the history
    is empty and no row is rejected as a duplicate: the result is every row
    the browser yields whose price has a digit, repeated rows included. *)
Theorem classic_com_fresh_file_accepts_all (now : string)
    (disk : gmap string (file row)) (listing_data : list (option row)) :
  disk !! output_csv now = None ->
  res_results (fst (run_classic_com_scraper_real now disk (Return listing_data)))
  = Some (priced_rows listing_data).
Proof.
  intros Hnone.
  rewrite run_classic_com_results.
  - unfold loaded_history. fold (output_csv now). rewrite Hnone.
    rewrite accepted_rows_empty_history. reflexivity.
  - fold (output_csv now). intros why. rewrite Hnone. discriminate.
Qed.

Lemma classic_com_output_witness :
  success (fst (run_classic_com_scraper_real "20240701_120000"
                  (one_file "classic_com_20240701_120000.csv" [porsche_150k])
                  (Return [Some ferrari_100k]))) = true.
Proof.
  refine (proj1 (classic_com_output "20240701_120000"
                   (one_file "classic_com_20240701_120000.csv" [porsche_150k])
                   [Some ferrari_100k] _)).
  intros why H. vm_compute in H. discriminate H.
Defined.

Lemma classic_com_failure_witness :
  run_classic_com_scraper_real "20240701_120000" ∅
    (Raise (Exception "Timeout 60000ms exceeded"))
  = (ScrapeResult false 0 None (Some []) (Some "Timeout 60000ms exceeded"), ∅).
Proof.
  apply (classic_com_failure "20240701_120000" ∅
           (Raise (Exception "Timeout 60000ms exceeded"))
           (Exception "Timeout 60000ms exceeded")).
  right. split; [|reflexivity].
  intros why H. vm_compute in H. discriminate H.
Defined.

Lemma classic_com_fresh_file_accepts_all_witness :
  res_results
    (fst (run_classic_com_scraper_real "20240701_120000" ∅
            (Return [Some ferrari_100k; Some porsche_bad_price; None;
                     Some ferrari_100k])))
  = Some [ferrari_100k; ferrari_100k].
Proof.
  apply (classic_com_fresh_file_accepts_all "20240701_120000" ∅
           [Some ferrari_100k; Some porsche_bad_price; None; Some ferrari_100k]).
  vm_compute. reflexivity.
Defined.

(** ** Printing and reading amounts *)

Lemma digits_value_shift (s : string) :
  forall acc,
    digits_value acc s
    = acc * 10 ^ Z.of_nat (String.length s) + digits_value 0 s.
Proof.
  induction s as [|c s IH]; intros acc; cbn [digits_value String.length].
  - rewrite Z.pow_0_r. lia.
  - rewrite (IH (10 * acc + digit_value c)), (IH (10 * 0 + digit_value c)).
    rewrite Nat2Z.inj_succ, Z.pow_succ_r by lia. lia.
Qed.

Lemma pretty_N_char_digit (d : N) :
  (d < 10)%N ->
  is_digit (pretty_N_char d) = true /\ digit_value (pretty_N_char d) = Z.of_N d.
Proof.
  intros H.
  assert (d = 0 \/ d = 1 \/ d = 2 \/ d = 3 \/ d = 4 \/ d = 5 \/ d = 6
          \/ d = 7 \/ d = 8 \/ d = 9)%N as Hd by lia.
  repeat (destruct Hd as [-> | Hd]; [split; reflexivity|]).
  subst d. split; reflexivity.
Qed.

Lemma pretty_N_go_digits (x : N) :
  forall s,
    all_digits s = true ->
    all_digits (pretty_N_go x s) = true
    /\ digits_value 0 (pretty_N_go x s)
       = Z.of_N x * 10 ^ Z.of_nat (String.length s) + digits_value 0 s.
Proof.
  induction (N.lt_wf_0 x) as [x _ IH]. intros s Hs.
  assert (x = 0 \/ 0 < x)%N as [-> | Hpos] by lia.
  - rewrite pretty_N_go_0. split; [exact Hs | lia].
  - rewrite pretty_N_go_step by exact Hpos.
    destruct (pretty_N_char_digit (x `mod` 10)%N) as [Hd Hv];
      [apply N.mod_lt; lia|].
    destruct (IH (x `div` 10)%N (N.div_lt x 10 Hpos eq_refl)
                 (String (pretty_N_char (x `mod` 10)) s)) as [Hall Hval].
    { cbn [all_digits]. rewrite Hd, Hs. reflexivity. }
    split; [exact Hall|]. rewrite Hval.
    cbn [digits_value String.length].
    rewrite (digits_value_shift s (10 * 0 + _)), Hv.
    rewrite Nat2Z.inj_succ, Z.pow_succ_r by lia.
    rewrite N2Z.inj_div, N2Z.inj_mod.
    change (Z.of_N 10) with 10.
    pose proof (Z.div_mod (Z.of_N x) 10 ltac:(lia)). nia.
Qed.

(** The decimal digits of a non-negative int read back as that int. *)
Lemma pretty_digits (n : Z) :
  0 <= n ->
  pretty n <> "" /\ all_digits (pretty n) = true
  /\ digits_value 0 (pretty n) = n.
Proof.
  intros Hn. destruct n as [|p|p]; [repeat split; discriminate| |lia].
  change (pretty (Z.pos p)) with (pretty (N.pos p)).
  unfold pretty, pretty_N. destruct (decide (N.pos p = 0%N)) as [H|_];
    [discriminate H|].
  destruct (pretty_N_go_digits (N.pos p) "" eq_refl) as [Hall Hval].
  cbn [String.length digits_value] in Hval.
  split; [|split; [exact Hall | rewrite Hval; cbn; lia]].
  intros Hemp. rewrite Hemp in Hval. cbn in Hval. lia.
Qed.

Lemma keep_digits_insert_commas (digits : string) :
  all_digits digits = true -> keep_digits (insert_commas digits) = digits.
Proof.
  induction digits as [|c rest IH]; intros Hall; [reflexivity|].
  cbn [all_digits] in Hall. apply andb_true_iff in Hall as [Hc Hrest].
  cbn [insert_commas keep_digits]. rewrite Hc.
  destruct ((0 <? String.length rest)%nat
            && (String.length rest mod 3 =? 0)%nat);
    cbn [keep_digits]; rewrite ?IH by exact Hrest; reflexivity.
Qed.

Lemma keep_digits_formatted (n : Z) :
  0 <= n ->
  keep_digits ("£" +:+ format_thousands n) = pretty n.
Proof.
  intros Hn. destruct (pretty_digits n Hn) as (_ & Hall & _).
  unfold format_thousands.
  change (keep_digits ("£" +:+ insert_commas (pretty n)))
    with (keep_digits (insert_commas (pretty n))).
  apply keep_digits_insert_commas. exact Hall.
Qed.

Lemma py_int_pretty (n : Z) : 0 <= n -> py_int (pretty n) = Return n.
Proof.
  intros Hn. destruct (pretty_digits n Hn) as (Hne & Hall & Hval).
  unfold py_int. rewrite Hall, Hval.
  destruct (pretty n); [congruence | reflexivity].
Qed.

(** X13: a price text as the pipeline writes it -- the pound sign, then the
    amount with a comma before every group of three digits -- normalises
    back to the amount: [normalize_price("£" + f"{n:,}") = n] for every
    [n >= 0]. *)
Theorem normalize_price_of_formatted (n : Z) :
  0 <= n ->
  normalize_price ("£" +:+ format_thousands n) = Return n.
Proof.
  intros Hn. unfold normalize_price.
  rewrite (keep_digits_formatted n Hn).
  apply py_int_pretty. exact Hn.
Qed.

Lemma normalize_price_of_formatted_witness :
  normalize_price ("£" +:+ format_thousands 1234567) = Return 1234567.
Proof. apply (normalize_price_of_formatted 1234567). lia. Defined.

(** ** Doubles nearest to an int *)

Lemma nearest_double_lower (n : Z) :
  0 < n -> 2 ^ Z.log2 n <= nearest_double n.
Proof.
  intros Hn. unfold nearest_double.
  pose proof (Z.log2_spec n Hn) as [Hlo Hhi].
  pose proof (Z.log2_nonneg n) as Hlog.
  destruct (Z.leb_spec (Z.log2 n - 52) 0) as [He|He]; [exact Hlo|].
  set (e := Z.log2 n - 52) in *.
  assert (Hpow : 2 ^ Z.log2 n = 2 ^ 52 * 2 ^ e).
  { rewrite <- Z.pow_add_r by lia. f_equal. unfold e. lia. }
  assert (Hpe : 0 < 2 ^ e) by (apply Z.pow_pos_nonneg; lia).
  assert (Hq : 2 ^ 52 <= n / 2 ^ e).
  { apply Z.div_le_lower_bound; [exact Hpe|]. rewrite Z.mul_comm, <- Hpow. exact Hlo. }
  rewrite Hpow.
  destruct ((2 ^ (e - 1) <? n mod 2 ^ e)
            || (n mod 2 ^ e =? 2 ^ (e - 1)) && Z.odd (n / 2 ^ e)); nia.
Qed.

Lemma nearest_double_nonneg (n : Z) : 0 <= n -> 0 <= nearest_double n.
Proof.
  intros Hn. destruct (Z.eq_dec n 0) as [->|Hne]; [vm_compute; discriminate|].
  pose proof (nearest_double_lower n ltac:(lia)).
  pose proof (Z.pow_nonneg 2 (Z.log2 n) ltac:(lia)). lia.
Qed.

Lemma usd_to_gbp_amount_nonneg (usd : Z) : 0 <= usd -> 0 <= usd_to_gbp_amount usd.
Proof.
  intros H. unfold usd_to_gbp_amount.
  apply Z.div_pos; [|reflexivity].
  apply nearest_double_nonneg.
  pose proof (nearest_double_nonneg usd H). lia.
Qed.

Lemma usd_to_gbp_amount_positive (usd : Z) : 2 <= usd -> 1 <= usd_to_gbp_amount usd.
Proof.
  intros H. unfold usd_to_gbp_amount.
  assert (Ha : 2 <= nearest_double usd).
  { pose proof (nearest_double_lower usd ltac:(lia)) as Hl.
    assert (1 <= Z.log2 usd) by (apply Z.log2_le_pow2; lia).
    assert (2 ^ 1 <= 2 ^ Z.log2 usd) by (apply Z.pow_le_mono_r; lia).
    lia. }
  set (p := nearest_double usd * 3422735716801577).
  assert (Hp : 2 ^ 52 <= p).
  { unfold p. change (2 ^ 52) with 4503599627370496. lia. }
  pose proof (nearest_double_lower p ltac:(lia)) as Hl.
  assert (52 <= Z.log2 p) by (apply Z.log2_le_pow2; lia).
  assert (2 ^ 52 <= 2 ^ Z.log2 p) by (apply Z.pow_le_mono_r; lia).
  apply Z.div_le_lower_bound; lia.
Qed.

(** X14: for a dollar amount in the range of the doubles
    [convert_usd_to_gbp] returns a price text that [normalize_price] reads
    back as a non-negative int, so a row built by the pipeline never makes
    the duplicate test fail on its own price text.  That int is 0 for $0 and
    $1 and at least 1 from $2 on.  From [2^1024 - 2^970] on the conversion
    to a double raises OverflowError. *)
Theorem convert_usd_to_gbp_normalises (usd_price : Z) :
  0 <= usd_price ->
  (usd_price < double_limit ->
   exists text gbp,
     convert_usd_to_gbp usd_price = Return text
     /\ normalize_price text = Return gbp
     /\ gbp = usd_to_gbp_amount usd_price
     /\ 0 <= gbp
     /\ (usd_price <= 1 -> gbp = 0)
     /\ (2 <= usd_price -> 1 <= gbp))
  /\ (double_limit <= usd_price ->
      convert_usd_to_gbp usd_price = Raise OverflowError).
Proof.
  intros Hpos. unfold convert_usd_to_gbp. split; intros Hlim.
  - destruct (Z.leb_spec double_limit usd_price) as [H|_]; [lia|].
    pose proof (usd_to_gbp_amount_nonneg usd_price Hpos) as Hg.
    eexists _, _. split; [reflexivity|].
    split.
    { unfold normalize_price. rewrite (keep_digits_formatted _ Hg).
      apply py_int_pretty. exact Hg. }
    split; [reflexivity|]. split; [exact Hg|]. split.
    + intros Hsmall.
      assert (usd_price = 0 \/ usd_price = 1) as [-> | ->] by lia;
        vm_compute; reflexivity.
    + apply usd_to_gbp_amount_positive.
  - destruct (Z.leb_spec double_limit usd_price) as [_|H]; [reflexivity | lia].
Qed.

Lemma convert_usd_to_gbp_normalises_witness :
  exists text gbp,
    convert_usd_to_gbp 125000 = Return text
    /\ normalize_price text = Return gbp
    /\ gbp = usd_to_gbp_amount 125000.
Proof.
  destruct (proj1 (convert_usd_to_gbp_normalises 125000 ltac:(lia)))
    as (text & gbp & H1 & H2 & H3 & _).
  - vm_compute. reflexivity.
  - exists text, gbp. split; [exact H1|]. split; [exact H2 | exact H3].
Defined.

(** ** The two loops of [process_vehicle_listings] *)

Section ProcessLoops.

Variable extract_auction_date : string -> string.
Variable extract_production_year : string -> string.
Variable extract_make_model_improved : string -> string * string.
Variable extract_is_spyder : string -> bool.
Variable extract_country_improved : string -> string.
Variable extract_auction_house_improved : string -> string.
Variable clean_description_text : string -> string.
Variable hash : string -> Z.

Local Abbreviation collect :=
  (collect_valid extract_auction_date extract_production_year
     extract_make_model_improved extract_is_spyder extract_country_improved
     extract_auction_house_improved clean_description_text hash).
Local Abbreviation process :=
  (process_vehicle_listings extract_auction_date extract_production_year
     extract_make_model_improved extract_is_spyder extract_country_improved
     extract_auction_house_improved clean_description_text hash).

Lemma unique_by_key_nodup (processed : list vehicle_data) :
  forall unique seen,
    NoDup (map vehicle_key unique) ->
    (forall v, v ∈ unique -> vehicle_key v ∈ seen) ->
    NoDup (map vehicle_key (unique_by_key processed unique seen)).
Proof.
  induction processed as [|listing rest IH]; intros unique seen Hnd Hseen;
    cbn [unique_by_key]; [exact Hnd|].
  destruct (decide (vehicle_key listing ∈ seen)) as [Hin|Hnew].
  - apply IH; assumption.
  - apply IH.
    + rewrite map_app. apply NoDup_app. split; [exact Hnd|]. split.
      * intros key Hkey Hkey'. cbn in Hkey'.
        apply list_elem_of_singleton in Hkey'. subst key.
        apply list_elem_of_fmap in Hkey as (v & Hv & Hin).
        apply Hnew. rewrite Hv. apply Hseen. exact Hin.
      * cbn. apply NoDup_singleton.
    + intros v Hv. apply elem_of_app in Hv as [Hv|Hv].
      * apply elem_of_union_l, Hseen, Hv.
      * apply list_elem_of_singleton in Hv. subst v.
        apply elem_of_union_r, elem_of_singleton. reflexivity.
Qed.

(** X15: no two records of the result of [process_vehicle_listings] agree
    on lower-cased make, lower-cased model, production year and price. *)
Theorem process_vehicle_listings_distinct_keys (raw_listings : list raw_listing) :
  NoDup (map vehicle_key (process raw_listings)).
Proof.
  unfold process_vehicle_listings. apply unique_by_key_nodup.
  - constructor.
  - intros v Hv. apply elem_of_nil in Hv. contradiction.
Qed.

Lemma collect_valid_step (listing : raw_listing) (rest : list raw_listing)
    (processed : list vehicle_data) (seen : gset Z) :
  collect (listing :: rest) processed seen
  = if long_enough listing then
      if decide (text_hash hash listing ∈ seen) then collect rest processed seen
      else
        match parse_listing_text extract_auction_date extract_production_year
                extract_make_model_improved extract_is_spyder
                extract_country_improved extract_auction_house_improved
                clean_description_text
                (strip (default "" (raw_text listing)))
                (default 0 (raw_index listing)) with
        | Raise _ => collect rest processed (seen ∪ {[text_hash hash listing]})
        | Return vehicle =>
          if is_valid_vehicle_listing vehicle then
            collect rest (processed ++ [vehicle]) (seen ∪ {[text_hash hash listing]})
          else collect rest processed (seen ∪ {[text_hash hash listing]})
        end
    else collect rest processed seen.
Proof.
  cbn [collect_valid]. unfold long_enough, text_hash.
  destruct (truthy (strip (default "" (raw_text listing)))); cbn [negb orb andb];
    [|reflexivity].
  destruct (py_len (strip (default "" (raw_text listing))) <? 30)%nat;
    reflexivity.
Qed.

(** A listing whose text is short or whose hash was seen is passed over. *)
Lemma collect_valid_all_skipped (raw_listings : list raw_listing) :
  forall processed seen,
    Forall (fun listing => long_enough listing = true ->
                           text_hash hash listing ∈ seen) raw_listings ->
    collect raw_listings processed seen = processed.
Proof.
  induction raw_listings as [|listing rest IH]; intros processed seen Hall;
    [reflexivity|].
  pose proof (Forall_inv Hall) as Hhead. pose proof (Forall_inv_tail Hall) as Hrest.
  cbn beta in Hhead. rewrite collect_valid_step.
  destruct (long_enough listing) eqn:Hlong; [|apply IH; exact Hrest].
  destruct (decide (text_hash hash listing ∈ seen)) as [_|Hnot];
    [apply IH; exact Hrest|].
  exfalso. apply Hnot, Hhead. reflexivity.
Qed.

Lemma seen_after_grows (raw_listings : list raw_listing) :
  forall seen x, x ∈ seen -> x ∈ seen_after hash raw_listings seen.
Proof.
  induction raw_listings as [|listing rest IH]; intros seen x Hx;
    cbn [seen_after]; [exact Hx|].
  destruct (long_enough listing); apply IH; [|exact Hx].
  apply elem_of_union_l, Hx.
Qed.

Lemma seen_after_covers (raw_listings : list raw_listing) :
  forall seen,
    Forall (fun listing => long_enough listing = true ->
                           text_hash hash listing ∈ seen_after hash raw_listings seen)
           raw_listings.
Proof.
  induction raw_listings as [|listing rest IH]; intros seen; constructor.
  - intros Hlong. cbn [seen_after]. rewrite Hlong.
    apply seen_after_grows, elem_of_union_r, elem_of_singleton. reflexivity.
  - cbn [seen_after]. destruct (long_enough listing); apply IH.
Qed.

Lemma collect_valid_app (l1 l2 : list raw_listing) :
  forall processed seen,
    collect (l1 ++ l2) processed seen
    = collect l2 (collect l1 processed seen) (seen_after hash l1 seen).
Proof.
  induction l1 as [|listing rest IH]; intros processed seen; [reflexivity|].
  rewrite <- app_comm_cons, !collect_valid_step. cbn [seen_after].
  destruct (long_enough listing); [|apply IH].
  destruct (decide (text_hash hash listing ∈ seen)) as [Hin|Hnew].
  - rewrite IH. f_equal. f_equal. apply set_eq. intros x.
    rewrite elem_of_union, elem_of_singleton.
    split; [intros Hx; left; exact Hx | intros [Hx | ->]; assumption].
  - destruct (parse_listing_text _ _ _ _ _ _ _ _ _) as [vehicle|e];
      [destruct (is_valid_vehicle_listing vehicle)|]; apply IH.
Qed.

(** X16: listings met a second time add nothing.  Whatever the hash
    function is, running [process_vehicle_listings] on a batch followed by
    the same batch again gives the result of the batch alone. *)
Theorem process_vehicle_listings_repeated_batch (raw_listings : list raw_listing) :
  process (raw_listings ++ raw_listings) = process raw_listings.
Proof.
  unfold process_vehicle_listings. f_equal.
  rewrite collect_valid_app.
  apply collect_valid_all_skipped, seen_after_covers.
Qed.

(** X17: a listing without text, or whose stripped text is shorter than 30
    characters, never gives a record: a batch of such listings gives the
    empty result. *)
Theorem process_vehicle_listings_short_texts (raw_listings : list raw_listing) :
  Forall (fun listing =>
            (py_len (strip (default "" (raw_text listing))) < 30)%nat)
         raw_listings ->
  process raw_listings = [].
Proof.
  intros Hshort. unfold process_vehicle_listings.
  rewrite collect_valid_all_skipped; [reflexivity|].
  eapply Forall_impl; [exact Hshort|].
  intros listing Hlen Hlong. unfold long_enough in Hlong.
  apply andb_true_iff in Hlong as [_ Hlong].
  apply negb_true_iff, Nat.ltb_ge in Hlong. cbn beta in Hlen. lia.
Qed.

End ProcessLoops.

Lemma process_vehicle_listings_short_texts_witness :
  process_vehicle_listings no_text year_1962 a_ferrari never no_text no_text
    no_text hash_by_length
    [short_listing; RawListing None None; listing_29_characters] = [].
Proof.
  apply (process_vehicle_listings_short_texts no_text year_1962 a_ferrari
           never no_text no_text no_text hash_by_length).
  repeat constructor; apply Nat.ltb_lt; reflexivity.
Defined.

(** ** The price patterns *)








Lemma append_assoc (a b c : string) : (a +:+ b) +:+ c = a +:+ (b +:+ c).
Proof.
  induction a as [|x a IH]; [reflexivity|].
  change ((String x a +:+ b) +:+ c) with (String x ((a +:+ b) +:+ c)).
  rewrite IH. reflexivity.
Qed.








(** X18: a text in which the currency prefix does not occur has no price:
    neither pattern matches and the price is the empty text. *)
Theorem extract_price_without_currency (text : string) :
  contains currency text = false -> extract_price text = Return "".
Proof.
  intros Hno.
  assert (Hsearch : forall r, search (Seq (Lit currency) r) text = None).
  { intros r. induction text as [|c text IH].
    - reflexivity.
    - cbn [contains] in Hno. apply orb_false_iff in Hno as [Hp Hrest].
      cbn [search rmatch]. rewrite Hp. apply IH. exact Hrest. }
  unfold extract_price, range_pattern, single_pattern. rewrite !Hsearch.
  reflexivity.
Qed.


Lemma extract_price_without_currency_witness :
  extract_price "1962 Ferrari 250 GT, sold for $2,500,000" = Return "".
Proof.
  apply (extract_price_without_currency "1962 Ferrari 250 GT, sold for $2,500,000").
  vm_compute. reflexivity.
Defined.


(** ** Auction houses *)



(** ** The script of [classic/classic.py] *)

Lemma gearbox_and_side_cases (divs : list string) :
  gearbox_and_side divs
  = if (2 <=? length divs)%nat then (Some "Unknown", strip (nth 1 divs ""))
    else (None, "Unknown").
Proof.
  unfold gearbox_and_side.
  destruct (3 <=? length divs)%nat eqn:H3; destruct (2 <=? length divs)%nat eqn:H2;
    try reflexivity.
  apply Nat.leb_le in H3. apply Nat.leb_gt in H2. lia.
Qed.

Lemma card_item_country (card : listing_card) (href : string) :
  item_country (card_item card href) = "Unknown".
Proof.
  unfold card_item. cbn [item_country]. rewrite gearbox_and_side_cases.
  destruct (2 <=? length (card_divs card))%nat; reflexivity.
Qed.

(** X21: in the script the country of a listing is "Unknown" whatever the
    card shows, and the drive side is the stripped text of the card's second
    element when it has at least two and "Unknown" otherwise; the third
    element is never used. *)
Theorem classic_card_country_unknown (card : listing_card) (href : string) :
  item_country (card_item card href) = "Unknown"
  /\ snd (gearbox_and_side (card_divs card))
     = (if (2 <=? length (card_divs card))%nat
        then strip (nth 1 (card_divs card) "") else "Unknown").
Proof.
  split; [apply card_item_country|].
  rewrite gearbox_and_side_cases.
  destruct (2 <=? length (card_divs card))%nat; reflexivity.
Qed.

Lemma collect_links_countries (cards : list listing_card) :
  forall results side,
    Forall (fun item => item_country item = "Unknown") results ->
    Forall (fun item => item_country item = "Unknown")
           (fst (collect_links cards results side)).
Proof.
  induction cards as [|card rest IH]; intros results side Hall;
    cbn [collect_links]; [exact Hall|].
  destruct (card_href card) as [href|]; [|apply IH; exact Hall].
  destruct (truthy href); [|apply IH; exact Hall].
  apply IH. apply Forall_app. split; [exact Hall|].
  constructor; [apply card_item_country | constructor].
Qed.

Lemma collect_links_last_side (cards : list listing_card) (last : listing_card) :
  forall results side,
    snd (collect_links (cards ++ [last]) results side)
    = Some (snd (gearbox_and_side (card_divs last))).
Proof.
  induction cards as [|card rest IH]; intros results side.
  - cbn [app collect_links].
    destruct (card_href last) as [href|]; [destruct (truthy href)|]; reflexivity.
  - rewrite <- app_comm_cons. cbn [collect_links].
    destruct (card_href card) as [href|]; [destruct (truthy href)|]; apply IH.
Qed.

Lemma scrape_items_rows (browse : string -> option listing_page)
    (existing : list row) (side : string) (items : list listed_item) :
  forall new_data,
    Forall (fun item => item_country item = "Unknown") items ->
    Forall (fun r => Country_of_Sale r = "Unknown" /\ LHD_RHD r = side
                     /\ Description r = "") new_data ->
    Forall (fun r => Country_of_Sale r = "Unknown" /\ LHD_RHD r = side
                     /\ Description r = "")
           (scrape_items browse existing side items new_data).
Proof.
  induction items as [|item rest IH]; intros new_data Hitems Hrows;
    cbn [scrape_items]; [exact Hrows|].
  pose proof (Forall_inv Hitems) as Hitem. cbn beta in Hitem.
  pose proof (Forall_inv_tail Hitems) as Hrest.
  destruct (browse (item_url item)) as [page|]; [|apply IH; assumption].
  destruct (normalize_price (page_price_text page)) as [price_usd|e];
    [|apply IH; assumption].
  destruct (convert_usd_to_gbp price_usd) as [price|e];
    [|apply IH; assumption].
  destruct (is_duplicate _ existing) as [[|]|e]; try (apply IH; assumption).
  apply IH; [exact Hrest|]. apply Forall_app. split; [exact Hrows|].
  constructor; [|constructor]. cbn. split; [exact Hitem|]. split; reflexivity.
Qed.

(** X22: every row the script saves has the country "Unknown" and an empty
    description, and carries the drive side of the last card of the search
    page -- not of its own card: step 2 reads the variable [LHD_RHD] as the
    loop of step 1 left it. *)
Theorem classic_rows_share_last_side (cards : list listing_card)
    (last : listing_card) (browse : string -> option listing_page)
    (existing_entries : list row) :
  Forall (fun r => Country_of_Sale r = "Unknown"
                   /\ LHD_RHD r = snd (gearbox_and_side (card_divs last))
                   /\ Description r = "")
         (classic_new_data (cards ++ [last]) browse existing_entries).
Proof.
  unfold classic_new_data.
  assert (Hitems : Forall (fun item => item_country item = "Unknown")
                     (fst (collect_links (cards ++ [last]) [] None)))
    by (apply collect_links_countries; constructor).
  pose proof (collect_links_last_side cards last [] None) as Hside.
  destruct (collect_links (cards ++ [last]) [] None) as [results side].
  cbn [fst snd] in *. subst side. cbn [default].
  apply scrape_items_rows; [exact Hitems | constructor].
Qed.

(** ** Pages of the Classic Valuer *)

Section ScrapeProperties.

Variable extract_auction_date : string -> string.
Variable extract_production_year : string -> string.
Variable extract_make_model_improved : string -> string * string.
Variable extract_is_spyder : string -> bool.
Variable extract_country_improved : string -> string.
Variable extract_auction_house : string -> string.
Variable clean_description_text : string -> string.
Variable hash : string -> Z.

Local Abbreviation process :=
  (process_vehicle_listings extract_auction_date extract_production_year
     extract_make_model_improved extract_is_spyder extract_country_improved
     extract_auction_house clean_description_text hash).
Local Abbreviation pages :=
  (scrape_pages extract_auction_date extract_production_year
     extract_make_model_improved extract_is_spyder extract_country_improved
     extract_auction_house clean_description_text hash).
Local Abbreviation market :=
  (scrape_market_data extract_auction_date extract_production_year
     extract_make_model_improved extract_is_spyder extract_country_improved
     extract_auction_house clean_description_text hash).

Lemma scrape_pages_prefix (budget : nat) :
  forall visits all_listings result,
    pages budget visits all_listings = Return result ->
    exists n,
      (n <= budget)%nat
      /\ result
         = all_listings
           ++ flat_map (fun visit => process (visit_raw visit)) (take n visits).
Proof.
  induction budget as [|budget IH]; intros visits all_listings result Hrun;
    cbn [scrape_pages] in Hrun.
  - injection Hrun as <-. exists 0%nat. split; [lia|].
    cbn. rewrite app_nil_r. reflexivity.
  - destruct visits as [|visit rest].
    { injection Hrun as <-. exists 0%nat. split; [lia|].
      cbn. rewrite app_nil_r. reflexivity. }
    destruct (visit_raw visit) as [|raw raws] eqn:Hraw.
    { injection Hrun as <-. exists 0%nat. split; [lia|].
      cbn. rewrite app_nil_r. reflexivity. }
    destruct (visit_has_next visit).
    + destruct (visit_pause_raises visit); [discriminate Hrun|].
      destruct (IH _ _ _ Hrun) as (n & Hn & ->).
      exists (S n). split; [lia|].
      cbn [take flat_map]. rewrite Hraw, <- app_assoc. reflexivity.
    + injection Hrun as <-. exists 1%nat. split; [lia|].
      cbn [take flat_map]. rewrite Hraw, app_nil_r. reflexivity.
Qed.

(** X23: [scrape_market_data] returns either nothing or the results of
    [process_vehicle_listings] on the first [n] pages put end to end, for
    some [n] that is at most [max_pages]; the records of different pages
    are not compared with each other.  When the market page cannot be
    reached, or when the page budget is zero or negative, it returns
    nothing. *)
Theorem scrape_market_data_pages (navigated : bool) (max_pages : Z)
    (visits : list page_visit) :
  (market navigated max_pages visits = []
   \/ exists n,
        Z.of_nat n <= max_pages
        /\ market navigated max_pages visits
           = flat_map (fun visit => process (visit_raw visit)) (take n visits))
  /\ (navigated = false \/ max_pages <= 0 ->
      market navigated max_pages visits = []).
Proof.
  unfold scrape_market_data. split.
  - destruct navigated; [|left; reflexivity].
    destruct (pages (Z.to_nat max_pages) visits []) as [result|e] eqn:Hrun;
      [|left; reflexivity].
    destruct (scrape_pages_prefix _ _ _ _ Hrun) as (n & Hn & ->).
    destruct n as [|n]; [left; reflexivity|].
    right. exists (S n). split; [lia | reflexivity].
  - intros [-> | Hmax]; [reflexivity|].
    destruct navigated; [|reflexivity].
    replace (Z.to_nat max_pages) with 0%nat by lia. reflexivity.
Qed.

Lemma scrape_pages_pause_raises (before : list page_visit) :
  forall (budget : nat) (visit : page_visit) (rest : list page_visit)
         (all_listings : list vehicle_data),
    Forall (fun v => visit_raw v <> [] /\ visit_has_next v = true
                     /\ visit_pause_raises v = false) before ->
    visit_raw visit <> [] -> visit_has_next visit = true ->
    visit_pause_raises visit = true ->
    (length before < budget)%nat ->
    exists e, pages budget (before ++ visit :: rest) all_listings = Raise e.
Proof.
  induction before as [|v before IH];
    intros budget visit rest all_listings Hbefore Hraw Hnext Hpause Hlen.
  - destruct budget as [|budget]; [cbn in Hlen; lia|].
    cbn [app scrape_pages].
    destruct (visit_raw visit) as [|raw raws]; [congruence|].
    rewrite Hnext, Hpause. eexists. reflexivity.
  - destruct budget as [|budget]; [cbn in Hlen; lia|].
    inversion Hbefore as [|v' before' (Hv1 & Hv2 & Hv3) Hrest]; subst.
    cbn [app scrape_pages].
    destruct (visit_raw v) as [|raw raws]; [congruence|].
    rewrite Hv2, Hv3.
    apply IH; auto. cbn in Hlen. lia.
Qed.

(** X24: when the pause after a page raises, [scrape_market_data] returns
    nothing: the records of that page and of every page before it are
    dropped by the handler of the function. *)
Theorem scrape_market_data_drops_all_on_error (max_pages : Z)
    (before : list page_visit) (visit : page_visit)
    (rest : list page_visit)
    (Hbefore : Forall (fun v => visit_raw v <> [] /\ visit_has_next v = true
                                /\ visit_pause_raises v = false) before)
    (Hraw : visit_raw visit <> [])
    (Hnext : visit_has_next visit = true)
    (Hpause : visit_pause_raises visit = true)
    (Hbudget : Z.of_nat (length before) < max_pages) :
  market true max_pages (before ++ visit :: rest) = [].
Proof.
  unfold scrape_market_data.
  destruct (scrape_pages_pause_raises before (Z.to_nat max_pages) visit rest
              [] Hbefore Hraw Hnext Hpause) as (e & ->); [lia|].
  reflexivity.
Qed.

End ScrapeProperties.

(** X25: [scrape] reports success exactly when the browser starts, at
    least one record was collected and the CSV file could be written.  The
    count it reports is the number of all records on success and zero
    otherwise, while the records it hands back are the first ten at most,
    in their order. *)
Theorem scrape_count_and_preview (initialised : outcome unit)
    (listings : list vehicle_data) (saved : outcome string) :
  (success (scrape initialised listings saved) = true <->
   (exists u, initialised = Return u) /\ listings <> []
   /\ exists name, saved = Return name)
  /\ records_found (scrape initialised listings saved)
     = (if success (scrape initialised listings saved)
        then Z.of_nat (length listings) else 0)
  /\ (forall preview,
        res_results (scrape initialised listings saved) = Some preview ->
        (length preview <= 10)%nat
        /\ length preview = Nat.min 10 (length listings)
        /\ exists others, listings = preview ++ others)
  /\ (res_results (scrape initialised listings saved) = None <->
      success (scrape initialised listings saved) = false).
Proof.
  assert (Hpreview : forall preview,
             Some (first_items 10 listings) = Some preview ->
             (length preview <= 10)%nat
             /\ length preview = Nat.min 10 (length listings)
             /\ exists others, listings = preview ++ others).
  { intros preview H.
    assert (preview = firstn 10 listings) as ->
      by (unfold first_items in H; congruence).
    rewrite List.length_firstn. split; [lia|]. split; [reflexivity|].
    exists (skipn 10 listings). symmetry. apply firstn_skipn. }
  unfold scrape.
  destruct initialised as [u|e]; destruct listings as [|v l] eqn:Hl;
    destruct saved as [name|e']; cbn [success records_found res_results];
    (split; [split; [intros H; try discriminate H; eauto 6
                    | intros ((u0 & Hu) & Hne & (n0 & Hn)); congruence]|]);
    (split; [reflexivity|]);
    (split; [first [exact Hpreview | intros preview H; discriminate H]|]);
    split; intros H; first [reflexivity | discriminate H].
Qed.

(** A page that gives a record and is followed by another, then a page that
    gives a record too and whose pause fails: nothing is returned, where the
    same two pages without the failure give two records. *)
Lemma scrape_market_data_drops_all_on_error_witness :
  scrape_market_data no_text year_1962 a_ferrari never no_text no_text
    no_text hash_by_length true 5
    ([page_with_more] ++ page_whose_pause_fails :: [])
  = []
  /\ length (scrape_market_data no_text year_1962 a_ferrari never no_text
               no_text no_text hash_by_length true 5
               [page_with_more; last_page]) = 2%nat.
Proof.
  split; [|vm_compute; reflexivity].
  apply scrape_market_data_drops_all_on_error.
  - repeat constructor; discriminate.
  - discriminate.
  - reflexivity.
  - reflexivity.
  - cbn. lia.
Defined.

(** ** Jobs that name the same file *)

Section SharedFile.

Context {record : Type}.

(** X26: deleting a job takes its file away from every other job that
    names the same file: for a completed job [id2] whose file is the one of
    the deleted job [id1], [get_job_results] no longer returns the rows of
    the file but only the results stored in the job. *)
Theorem delete_job_takes_shared_file (id1 id2 name : string)
    (w : world record) (j1 j2 : job record) :
  id1 <> id2 ->
  scraping_jobs w !! id1 = Some j1 ->
  scraping_jobs w !! id2 = Some j2 ->
  status j2 = completed ->
  named_file j1 = Some name ->
  named_file j2 = Some name ->
  get_job_results id2 (after (delete_job id1 w))
  = Run (Return (StoredResults id2 (results j2))) (after (delete_job id1 w)) [].
Proof.
  intros Hne H1 H2 Hst Hn1 Hn2.
  unfold delete_job. rewrite H1, Hn1. cbn [after].
  unfold get_job_results. cbn [scraping_jobs files].
  rewrite lookup_delete_ne by exact Hne.
  rewrite H2, Hst, Hn2, lookup_delete_eq. reflexivity.
Qed.

End SharedFile.

Lemma delete_job_takes_shared_file_witness :
  get_job_results "5e6f7a8b" (after (delete_job "1a2b3c4d" world_with_shared_file))
  = Run (Return (StoredResults "5e6f7a8b" [porsche_150k]))
        (after (delete_job "1a2b3c4d" world_with_shared_file)) [].
Proof.
  apply (delete_job_takes_shared_file "1a2b3c4d" "5e6f7a8b"
           "classic_com_20240701_120000.csv" world_with_shared_file
           (finished_job "1a2b3c4d" [ferrari_100k] 1
              (Some "classic_com_20240701_120000.csv"))
           (finished_job "5e6f7a8b" [porsche_150k] 1
              (Some "classic_com_20240701_120000.csv")));
    first [discriminate | vm_compute; reflexivity | reflexivity].
Defined.
